(** * Home.py: the landing page of the Global Economy Dashboard

    A shallow embedding of [Home.py] (a Streamlit script) and the proofs of
    the properties its specification states.

    - Python strings are byte strings (UTF-8), so that [String.le] is the
      code-point order Python's [sorted] uses on [str].
    - A pandas [DataFrame] is its column labels (native order) and its rows
      (file order); the cells of the six columns of the data contract are
      typed fields of a row, every one of them nullable.
    - Streamlit calls are recorded as the list of elements the run puts on
      the page, with the way the run ends ([Completed], [Stopped] by
      [st.stop()], or [Raised] by an uncaught exception).
    - [st.cache_data] is a dictionary from the argument to the returned
      table, a [gmap]; storage accesses are logged so that a cache hit can
      be told from a read. *)

From Stdlib Require Import ZArith String Ascii List Bool Lia DecimalString.
From stdpp Require Import gmap strings list sorting.
From Stdlib Require DecimalZ DecimalPos.

(** ** Python formatting *)

(** [str(n)] of an [int]. *)
Definition py_str (z : Z) : string := NilZero.string_of_int (Z.to_int z).

(** Digits least significant first; [k] digits already stand in the current
    group.  A comma goes between full groups of three. *)
Fixpoint commas_rev (k : nat) (ds : list ascii) : list ascii :=
  match ds with
  | [] => []
  | d :: t =>
      match k with
      | 3%nat => ","%char :: d :: commas_rev 1 t
      | _ => d :: commas_rev (S k) t
      end
  end.

Definition group_digits (digits : string) : string :=
  string_of_list_ascii (rev (commas_rev 0 (rev (list_ascii_of_string digits)))).

(** [f"{n:,}"] of an [int]: the sign, then the digits in groups of three. *)
Definition py_format_comma (z : Z) : string :=
  if (z <? 0)%Z then "-" +:+ group_digits (py_str (Z.abs z))
  else group_digits (py_str z).

(** ** Exceptions and results *)

Inductive Exn :=
| IntOfMissing (* int() of a missing value: ValueError for the NaN of a
                  float64 column, TypeError for the pd.NA of an Int64 one *)
| ReadError.   (* whatever pd.read_parquet raises on what it finds *)

Inductive result (A : Type) :=
| Ok (a : A)
| Raise (e : Exn).
Arguments Ok {A} a.
Arguments Raise {A} e.

#[global] Instance result_ret : MRet result := fun A a => Ok a.
#[global] Instance result_bind : MBind result := fun A B f r =>
  match r with
  | Ok a => f a
  | Raise e => Raise e
  end.

(** How a script run ends. *)
Inductive Outcome :=
| Completed            (* ran to the last line *)
| Stopped              (* st.stop() *)
| Raised (e : Exn).    (* uncaught exception *)

#[global] Instance Exn_eq_dec : EqDecision Exn.
Proof. solve_decision. Defined.
#[global] Instance Outcome_eq_dec : EqDecision Outcome.
Proof. solve_decision. Defined.

(** ** pandas: series *)

(** A series is the list of its cells, [None] being the null (NaN/None). *)
Section Series.
Context {A : Type} `{EqDecision A}.

(** [s.dropna()] *)
Definition dropna (s : list (option A)) : list A := omap id s.

(** [s.unique()] on a series without nulls: distinct values in order of
    first appearance.  [seen] holds the values already produced. *)
Fixpoint unique_from (seen : list A) (l : list A) : list A :=
  match l with
  | [] => []
  | x :: t =>
      if bool_decide (x ∈ seen) then unique_from seen t
      else x :: unique_from (x :: seen) t
  end.
Definition unique (l : list A) : list A := unique_from [] l.

(** [s.nunique()]: the default [dropna=True] leaves nulls out. *)
Definition nunique (s : list (option A)) : nat := length (unique (dropna s)).
End Series.

(** [s.min()] and [s.max()] of an integer series skip nulls (the default
    [skipna=True]) and are NaN, here [None], when nothing is left. *)
Definition series_min (s : list (option Z)) : option Z :=
  match dropna s with
  | [] => None
  | x :: t => Some (foldl Z.min x t)
  end.

Definition series_max (s : list (option Z)) : option Z :=
  match dropna s with
  | [] => None
  | x :: t => Some (foldl Z.max x t)
  end.

(** [int(x)] of what [min()]/[max()] returned.  The missing value is NaN
    or [pd.NA] by the dtype of the column, and [int] raises on both
    ([ValueError], [TypeError]); a series here has one null, and one
    exception, [IntOfMissing], stands for the two. *)
Definition py_int (x : option Z) : result Z :=
  match x with
  | Some z => Ok z
  | None => Raise IntOfMissing
  end.

(** [sorted(l)] of a list of [str].  [String.le] compares byte by byte,
    which on UTF-8 text is Python's order by code point. *)
Definition sorted (l : list string) : list string := merge_sort String.le l.

(** ** pandas: data frames *)

Section Frames.
(** The type of the cells of the [value] column (a float in the parquet
    file).  The script never looks inside one, it only passes them on to
    the preview. *)
Variable number : Type.

(** A row of the long-format table: the six columns of the data
    contract.  A field of a column the table does not have is never
    read. *)
Record Row := mkRow {
  country : option string;
  country_code : option string;
  year : option Z;
  indicator_name : option string;
  value : option number;
  source : option string;
}.

(** [columns] is [df.columns] in the table's own order; labels are
    unique, as in every frame [pd.read_parquet] returns.  [rows] are in
    file order.  Cells of columns outside the data contract are not
    represented: the script never reads them. *)
Record DataFrame := mkDataFrame {
  columns : list string;
  rows : list Row;
}.

(** [pd.DataFrame()] *)
Definition empty_frame : DataFrame := {| columns := []; rows := [] |}.

(** [df.empty]: some axis has length zero. *)
Definition empty (df : DataFrame) : bool :=
  bool_decide (columns df = []) || bool_decide (rows df = []).

(** [len(df)] *)
Definition len (df : DataFrame) : nat := length (rows df).

(** [c in df.columns] *)
Definition has_column (df : DataFrame) (c : string) : bool :=
  bool_decide (c ∈ columns df).

(** A cell of column [label] in a frame restricted to [cols]. *)
Definition keep {A} (cols : list string) (label : string) (x : option A)
  : option A :=
  if bool_decide (label ∈ cols) then x else None.

Definition project (cols : list string) (r : Row) : Row :=
  {| country := keep cols "country" (country r);
     country_code := keep cols "country_code" (country_code r);
     year := keep cols "year" (year r);
     indicator_name := keep cols "indicator_name" (indicator_name r);
     value := keep cols "value" (value r);
     source := keep cols "source" (source r) |}.

(** [df[cols]] for labels [cols] of [df]: those columns, in the order of
    [cols]. *)
Definition getitem_list (df : DataFrame) (cols : list string) : DataFrame :=
  {| columns := cols; rows := map (project cols) (rows df) |}.

(** [df.head(n)] *)
Definition head (n : nat) (df : DataFrame) : DataFrame :=
  {| columns := columns df; rows := take n (rows df) |}.
End Frames.

Arguments mkRow {number}.
Arguments country {number}.
Arguments country_code {number}.
Arguments year {number}.
Arguments indicator_name {number}.
Arguments value {number}.
Arguments source {number}.
Arguments mkDataFrame {number}.
Arguments columns {number}.
Arguments rows {number}.
Arguments empty_frame {number}.
Arguments empty {number}.
Arguments len {number}.
Arguments has_column {number}.
Arguments project {number}.
Arguments getitem_list {number}.
Arguments head {number}.

(** ** Streamlit: what a run puts on the page *)

(** One constructor for each Streamlit call of the script, with the
    arguments the script passes.  [Columns] holds what was put in each
    column of an [st.columns] row, left to right (the relative widths of
    line 72 are not kept); [Expander] holds what is drawn inside it. *)

#[local] Unset Elimination Schemes.
Inductive Element (number : Type) :=
| PageConfig (page_title layout initial_sidebar_state : string)
| Markdown (body : string) (unsafe_allow_html : bool)
| Warning (body : string)
| Columns (cols : list (list (Element number)))   (* left to right *)
| Metric (label value : string)
| Divider
| Subheader (body : string)
| Write (body : string)
| Info (body : string)
| Expander (label : string) (body : list (Element number))
| Dataframe (data : DataFrame number) (width : string)
| Caption (body : string).
#[local] Set Elimination Schemes.

Arguments PageConfig {number}.
Arguments Markdown {number}.
Arguments Warning {number}.
Arguments Columns {number}.
Arguments Metric {number}.
Arguments Divider {number}.
Arguments Subheader {number}.
Arguments Write {number}.
Arguments Info {number}.
Arguments Expander {number}.
Arguments Dataframe {number}.
Arguments Caption {number}.

(** ** The static text of the page *)

Definition dq : string := String "034"%char EmptyString.

(** Home.py line 30. *)
Definition HERO_HTML : string :=
  "
    <div style=" +:+ dq +:+ "padding: 0.6rem 0 0.2rem 0;" +:+ dq +:+ ">
        <h1 style=" +:+ dq +:+ "margin-bottom: 0.2rem;" +:+ dq +:+ ">🌍 Global Economy Dashboard</h1>
        <p style=" +:+ dq +:+ "margin-top: 0; font-size: 1.05rem; color: #666;" +:+ dq +:+ ">
            An interactive analytics suite built with <b>Python + Streamlit + Plotly</b> using
            <b>World Bank World Development Indicators (WDI)</b>.
        </p>
    </div>
    ".

(** Home.py line 77. *)
Definition ABOUT_TEXT : string :=
  "
This project is designed as a **portfolio-grade data product** that demonstrates:
- **ETL pipeline** (API ingestion → cleaning → parquet)
- **Exploratory analytics** (country trends, ranking, cross-indicator analysis)
- **Interactive dashboards** (filters, KPIs, maps, downloads)
- **Deployment readiness** (designed for Hugging Face Spaces or Streamlit hosting)

The goal is to make global macroeconomic data easy to explore using modern, interactive visualization.
".

(** Home.py line 91. *)
Definition HOWTO_TEXT : string :=
  "
1. Use the **sidebar Pages** menu to switch dashboards.
2. Apply filters (country, indicator, year).
3. Use **Download CSV** when available to export slices.
4. Compare countries via **rankings + maps** for fast insights.
".

(** Home.py line 98. *)
Definition TIP_TEXT : string :=
  "Tip: Start with **Macro** for country trends, then use **Rankings & Map** for global context.".

(** Home.py line 112. *)
Definition MACRO_TEXT : string :=
  "
**Purpose:** Explore a single country over time and compare indicators.

**What you can do:**
- Select a country + multiple indicators
- View KPI snapshots (latest year)
- Plot trends over time (line chart)
- Compare indicators in a pivot table
".

(** Home.py line 125. *)
Definition COST_TEXT : string :=
  "
**Purpose:** Analyze inflation impact and affordability proxies.

**What you can do:**
- Track inflation + related cost-of-living indicators
- View affordability-style plots (e.g., inflation vs GDP per capita)
- Highlight a country relative to others
- Export filtered data
".

(** Home.py line 139. *)
Definition RANKINGS_TEXT : string :=
  "
**Purpose:** Compare countries globally for any indicator in a selected year.

**What you can do:**
- Rank **Top / Bottom** countries by indicator and year
- Visualize results on a full-width **world choropleth map**
- Switch to log-scale for skewed indicators
- Download indicator-year slices
".

(** Home.py line 152. *)
Definition HEALTH_TEXT : string :=
  "
**Purpose:** Build a composite economic “health” view.

**What you can do:**
- Compute an index from growth, inflation, unemployment
- Normalize indicators (z-scores)
- Adjust weights (if your page supports it)
- Rank countries + visualize index on a world map
".

(** Home.py line 171. *)
Definition SOURCE_TEXT : string :=
  "
- **Source:** World Bank – World Development Indicators (WDI)
- **Access method:** World Bank Indicators API (via ETL script)
- **Processing:** unified long-format table saved as a parquet file
- **Limitations:** coverage varies by country/year; some indicators may be missing for specific years
".

(** Home.py line 184. *)
Definition CAPTION_TEXT : string :=
  "This dashboard is for informational purposes. Reported values depend on World Bank coverage and may be missing for some country-year combinations.".

(** Home.py lines 45 to 48: the f-string of the warning.  The command is
    the ETL script that writes the data file. *)
Definition ETL_COMMAND : string := "python scripts/etl_worldbank.py".

Definition warning_text (DATA_PATH : string) : string :=
  "Dataset not found at: " +:+ DATA_PATH +:+ "

To generate it locally, run:
• `" +:+ ETL_COMMAND +:+ "`

Then re-run the app.".

(** ** Paths + Data loading *)

Abbreviation path := string (only parsing).

(** What the script can ask of the file system. *)
Inductive IO :=
| Exists (p : path)        (* path.exists() *)
| ReadParquet (p : path).  (* pd.read_parquet(path) *)

Section Script.
Variable number : Type.

(** The file system at the moment of a call: [path_exists p] is
    [p.exists()], [read_parquet p] what [pd.read_parquet(p)] does. *)
Record Storage := mkStorage {
  path_exists : path → bool;
  read_parquet : path → result (DataFrame number);
}.

(** The body of [load_data], with the log of its storage accesses. *)
Definition load_data_body (fs : Storage) (p : path)
  : result (DataFrame number) * list IO :=
  if negb (path_exists fs p) then (Ok empty_frame, [Exists p])
  else (read_parquet fs p, [Exists p; ReadParquet p]).

(** [@st.cache_data def load_data(path)]: the cache maps the argument to
    the table returned for it.  A hit returns the cached table and does
    not run the body; a miss runs the body and stores what it returns
    (an exception is not stored). *)
Definition load_data (cache : gmap string (DataFrame number)) (fs : Storage)
  (p : path)
  : result (DataFrame number) * gmap string (DataFrame number) * list IO :=
  match cache !! p with
  | Some df => (Ok df, cache, [])
  | None =>
      let '(r, io) := load_data_body fs p in
      match r with
      | Ok df => (Ok df, <[p := df]> cache, io)
      | Raise e => (Raise e, cache, io)
      end
  end.

(** ** Quick stats *)

(** [df[label]], the cells of the column kept in [field]. *)
Definition getitem {A} (df : DataFrame number) (field : Row number → option A)
  : list (option A) :=
  map field (rows df).

(** Home.py line 55. *)
Definition countries (df : DataFrame number) : nat :=
  if has_column df "country_code" then nunique (getitem df country_code)
  else 0%nat.

(** Home.py line 56. *)
Definition indicators (df : DataFrame number) : list string :=
  if has_column df "indicator_name"
  then sorted (unique (dropna (getitem df indicator_name)))
  else [].

(** Home.py lines 57 and 58.  The result is Python's [None] when the table
    has no [year] column. *)
Definition year_min (df : DataFrame number) : result (option Z) :=
  if has_column df "year"
  then y ← py_int (series_min (getitem df year)); mret (Some y)
  else mret None.

Definition year_max (df : DataFrame number) : result (option Z) :=
  if has_column df "year"
  then y ← py_int (series_max (getitem df year)); mret (Some y)
  else mret None.

(** [f"{x}"] of an [int] or [None]. *)
Definition py_fstr (x : option Z) : string :=
  match x with
  | Some z => py_str z
  | None => "None"
  end.

(** Home.py line 64. *)
Definition years_text (year_min year_max : option Z) : string :=
  match year_min with
  | None => "—"
  | Some _ => py_fstr year_min +:+ " → " +:+ py_fstr year_max
  end.

(** Home.py lines 61 to 65: [k1, k2, k3, k4 = st.columns(4)] and one
    metric in each. *)
Definition metrics (countries : nat) (indicators : list string)
  (year_min year_max : option Z) (rows : nat) : Element number :=
  Columns
    [ [Metric "Countries" (py_format_comma (Z.of_nat countries))];
      [Metric "Indicators" (py_format_comma (Z.of_nat (length indicators)))];
      [Metric "Years" (years_text year_min year_max)];
      [Metric "Rows" (py_format_comma (Z.of_nat rows))] ].

(** Home.py lines 67 to 185: the part of the page below the metrics. *)
Definition body (df_preview : DataFrame number) : list (Element number) :=
  [ Divider;
    Columns
      [ [Subheader "What this project is about"; Write ABOUT_TEXT];
        [Subheader "How to use the app"; Markdown HOWTO_TEXT false;
         Info TIP_TEXT] ];
    Divider;
    Subheader "Dashboards inside this project";
    Columns
      [ [Markdown "### 📈 Macro Dashboard" false; Write MACRO_TEXT;
         Markdown "### 🧺 Cost of Living & Affordability" false;
         Write COST_TEXT];
        [Markdown "### 🗺️ Global Rankings & Map" false;
         Write RANKINGS_TEXT;
         Markdown "### 🧠 Global Health Index" false;
         Write HEALTH_TEXT] ];
    Divider;
    Subheader "Data source & transparency";
    Write SOURCE_TEXT;
    Expander "Show dataset preview" [Dataframe df_preview "stretch"];
    Caption CAPTION_TEXT ].

(** ** Dataset preview *)

Definition PREVIEW_COLUMNS : list string :=
  ["country"; "country_code"; "year"; "indicator_name"; "value"; "source"].

(** Home.py line 180. *)
Definition show_cols (df : DataFrame number) : list string :=
  filter (λ c, has_column df c = true) PREVIEW_COLUMNS.

(** Home.py line 181: [df[show_cols].head(50)]. *)
Definition preview (df : DataFrame number) : DataFrame number :=
  head 50 (getitem_list df (show_cols df)).

(** ** The page *)

(** Home.py lines 29 to 185: everything after the table is loaded.  The
    header is drawn first; an empty table ends the run at [st.stop()];
    otherwise lines 55 to 59 run in order before anything else is drawn. *)
Definition render (DATA_PATH : path) (df : DataFrame number)
  : list (Element number) * Outcome :=
  let hero := Markdown HERO_HTML true in
  if empty df then
    ([hero; Warning (warning_text DATA_PATH)], Stopped)
  else
    let countries := countries df in
    let indicators := indicators df in
    match year_min df with
    | Raise e => ([hero], Raised e)
    | Ok year_min =>
        match year_max df with
        | Raise e => ([hero], Raised e)
        | Ok year_max =>
            let rows := len df in
            (hero :: metrics countries indicators year_min year_max rows
                  :: body (preview df),
             Completed)
        end
    end.

(** One run of the script. *)
Record Run := mkRun {
  page : list (Element number);
  outcome : Outcome;
  cache_after : gmap string (DataFrame number);
  io_log : list IO;
}.

(** Home.py, top to bottom. *)
Definition Home (DATA_PATH : path) (cache : gmap string (DataFrame number))
  (fs : Storage) : Run :=
  let config := PageConfig "Global Economy Dashboard" "wide" "expanded" in
  let '(r, cache', io) := load_data cache fs DATA_PATH in
  match r with
  | Raise e => mkRun [config] (Raised e) cache' io
  | Ok df =>
      let '(out, how) := render DATA_PATH df in
      mkRun (config :: out) how cache' io
  end.
End Script.

Arguments mkStorage {number}.
Arguments path_exists {number}.
Arguments read_parquet {number}.
Arguments load_data_body {number}.
Arguments load_data {number}.
Arguments getitem {number A}.
Arguments countries {number}.
Arguments indicators {number}.
Arguments year_min {number}.
Arguments year_max {number}.
Arguments metrics {number}.
Arguments body {number}.
Arguments show_cols {number}.
Arguments preview {number}.
Arguments render {number}.
Arguments mkRun {number}.
Arguments page {number}.
Arguments outcome {number}.
Arguments cache_after {number}.
Arguments io_log {number}.
Arguments Home {number}.

(** ** Reading a page *)

(** The metrics on a page, as (label, value), left to right and top to
    bottom, wherever they are nested. *)
Fixpoint metrics_in {number} (e : Element number) : list (string * string) :=
  match e with
  | Metric label v => [(label, v)]
  | Columns cols => concat (map (λ col, concat (map metrics_in col)) cols)
  | Expander _ inner => concat (map metrics_in inner)
  | _ => []
  end.

Definition shown_metrics {number} (page : list (Element number))
  : list (string * string) :=
  concat (map metrics_in page).

(** The tables on a page. *)
Fixpoint dataframes_in {number} (e : Element number) : list (DataFrame number) :=
  match e with
  | Dataframe data _ => [data]
  | Columns cols => concat (map (λ col, concat (map dataframes_in col)) cols)
  | Expander _ inner => concat (map dataframes_in inner)
  | _ => []
  end.

Definition shown_dataframes {number} (page : list (Element number))
  : list (DataFrame number) :=
  concat (map dataframes_in page).


(** ** What the properties speak of *)

(** Strictly ascending: each name is below the next one and differs from
    it. *)
Definition str_lt (a b : string) : Prop := String.le a b ∧ a ≠ b.

(** [lo] is the least and [hi] the greatest non-null cell of [s]. *)
Definition is_min (s : list (option Z)) (lo : Z) : Prop :=
  Some lo ∈ s ∧ ∀ y, Some y ∈ s → (lo ≤ y)%Z.
Definition is_max (s : list (option Z)) (hi : Z) : Prop :=
  Some hi ∈ s ∧ ∀ y, Some y ∈ s → (y ≤ hi)%Z.

(** The table without the rows whose [field] is null, and those rows. *)
Definition without_null {number A} (field : Row number → option A)
    (df : DataFrame number) : DataFrame number :=
  {| columns := columns df;
     rows := filter (λ r, is_Some (field r)) (rows df) |}.

Definition null_rows {number A} (field : Row number → option A)
    (df : DataFrame number) : list (Row number) :=
  filter (λ r, ¬ is_Some (field r)) (rows df).

(** ** Sample tables and file systems *)

(** An observation with a country code, an indicator name and a year. *)
Definition obs (code name : string) (y : option Z) : Row Z :=
  mkRow None (Some code) y (Some name) None None.

(** Country codes US, US, FR with indicators GDP, Inflation, GDP. *)
Definition three_rows : DataFrame Z :=
  {| columns := ["country_code"; "indicator_name"];
     rows := [obs "US" "GDP" None; obs "US" "Inflation" None;
              obs "FR" "GDP" None] |}.

(** The same observations with their years, and the columns in an order
    of their own. *)
Definition dated_rows : DataFrame Z :=
  {| columns := ["year"; "indicator_name"; "country_code"; "iso3"];
     rows := [obs "US" "GDP" (Some 2003%Z); obs "US" "Inflation" (Some 1999%Z);
              obs "FR" "GDP" None] |}.

(** A table whose [year] column holds no year at all. *)
Definition null_years : DataFrame Z :=
  {| columns := ["country_code"; "indicator_name"; "year"];
     rows := [obs "US" "GDP" None] |}.

(** A file with the columns of [dated_rows] and no row. *)
Definition zero_rows : DataFrame Z :=
  {| columns := columns dated_rows; rows := [] |}.

(** The numbered rows of a table of [n] rows. *)
Definition numbered_rows (n : nat) : DataFrame Z :=
  {| columns := ["year"; "value"];
     rows := map (λ i, mkRow None None (Some (Z.of_nat i)) None
                         (Some (Z.of_nat i)) None) (seq 0 n) |}.

(** [three_rows] and one more row, with neither a code nor a name. *)
Definition with_null_row : DataFrame Z :=
  {| columns := columns three_rows;
     rows := rows three_rows ++ [mkRow None None None None None None] |}.

Definition SAMPLE_PATH : path := "/app/data/processed/econ_option_a.parquet".

(** Nothing at any path. *)
Definition no_files : Storage Z :=
  {| path_exists := λ _, false; read_parquet := λ _, Raise ReadError |}.

(** One parquet file at [p], holding [df]. *)
Definition one_file (p : path) (df : DataFrame Z) : Storage Z :=
  {| path_exists := λ q, bool_decide (q = p);
     read_parquet := λ q, if bool_decide (q = p) then Ok df
                          else Raise ReadError |}.

(** ** More of what the properties speak of *)

(** The text of a metric without its thousands separators. *)
Definition strip_commas (s : string) : string :=
  string_of_list_ascii
    (filter (λ c, c ≠ ","%char) (list_ascii_of_string s)).

(** The count a metric text stands for: the decimal numeral left when the
    separators are taken out. *)
Definition count_of_text (s : string) : option Z :=
  Z.of_int <$> NilZero.int_of_string (strip_commas s).

(** A file at [p] that [pd.read_parquet] cannot read. *)
Definition unreadable_file (p : path) : Storage Z :=
  {| path_exists := λ q, bool_decide (q = p);
     read_parquet := λ _, Raise ReadError |}.

(** The rows of [dated_rows] in another order. *)
Definition dated_rows_shuffled : DataFrame Z :=
  {| columns := columns dated_rows;
     rows := [obs "FR" "GDP" None; obs "US" "GDP" (Some 2003%Z);
              obs "US" "Inflation" (Some 1999%Z)] |}.

(** A table with every column of the preview list and two more. *)
Definition wide_rows : DataFrame Z :=
  {| columns := ["source"; "value"; "unit"; "indicator_name"; "year";
                 "country_code"; "country"; "iso3"];
     rows := [mkRow (Some "France") (Some "FR") (Some 2001%Z) (Some "GDP")
                (Some 7%Z) (Some "WDI")] |}.

(** What the preview shows of the column [label], kept in [field]: the
    first 50 cells as they are when the table has the column, and nothing
    when it has not. *)
Definition preview_shows {number A} (df : DataFrame number) (label : string)
    (field : Row number → option A) : Prop :=
  (has_column df label = true →
     getitem (preview df) field = take 50 (getitem df field))
  ∧ (has_column df label = false →
       ∀ x, x ∈ getitem (preview df) field → x = None).

(** The run gets past line 57: the table has no [year] column, or there
    is a year in the column. *)
Definition years_known {number} (df : DataFrame number) : Prop :=
  has_column df "year" = false ∨ ∃ y, Some y ∈ getitem df year.

(** Two observations without a year, the second without a code and a
    name as well. *)
Definition null_fields : DataFrame Z :=
  {| columns := ["country_code"; "indicator_name"; "year"];
     rows := [obs "US" "GDP" None; mkRow None None None None None None] |}.

(** * Properties *)

(** ** Small checks of the Python and pandas models *)
Example sorted_ex : sorted ["GDP"; "Inflation"; "Debt"] = ["Debt"; "GDP"; "Inflation"].
Proof. vm_compute. reflexivity. Qed.
Example unique_ex : unique ["GDP"; "Inflation"; "GDP"] = ["GDP"; "Inflation"].
Proof. vm_compute. reflexivity. Qed.
Example py_str_0 : py_str 0 = "0". Proof. reflexivity. Qed.
Example py_str_neg : py_str (-44) = "-44". Proof. reflexivity. Qed.
Example py_format_comma_small : py_format_comma 999 = "999".
Proof. reflexivity. Qed.
Example py_format_comma_big : py_format_comma 1234567 = "1,234,567".
Proof. vm_compute. reflexivity. Qed.
Example py_format_comma_neg : py_format_comma (-1000) = "-1,000".
Proof. vm_compute. reflexivity. Qed.

(** ** Series *)

Section SeriesFacts.
Context {A : Type} `{EqDecision A}.
Implicit Types (s : list (option A)) (l seen : list A).

Lemma elem_of_dropna s x : x ∈ dropna s ↔ Some x ∈ s.
Proof.
  unfold dropna. rewrite list_elem_of_omap. split.
  - intros (o & Ho & Hx). simpl in Hx. by subst.
  - intros Hx. by exists (Some x).
Qed.

Lemma length_dropna s : length (dropna s) ≤ length s.
Proof.
  induction s as [|[a|] s IH]; simpl; [lia | | ].
  - change (S (length (dropna s)) ≤ S (length s)). lia.
  - change (length (dropna s) ≤ S (length s)). lia.
Qed.

Lemma elem_of_unique_from seen l x :
  x ∈ unique_from seen l ↔ x ∈ l ∧ x ∉ seen.
Proof.
  revert seen. induction l as [|y l IH]; intros seen; simpl.
  - rewrite elem_of_nil. tauto.
  - case_bool_decide as Hy.
    + rewrite IH, elem_of_cons. intuition congruence.
    + rewrite !elem_of_cons, IH, elem_of_cons.
      destruct (decide (x = y)); intuition congruence.
Qed.

Lemma NoDup_unique_from seen l : NoDup (unique_from seen l).
Proof.
  revert seen. induction l as [|y l IH]; intros seen; simpl.
  - constructor.
  - case_bool_decide; [apply IH|].
    constructor; [|apply IH].
    rewrite elem_of_unique_from, elem_of_cons. tauto.
Qed.

Lemma length_unique_from seen l : length (unique_from seen l) ≤ length l.
Proof.
  revert seen. induction l as [|y l IH]; intros seen; simpl; [lia|].
  case_bool_decide; [specialize (IH seen) | specialize (IH (y :: seen))];
    simpl; lia.
Qed.

Lemma elem_of_unique l x : x ∈ unique l ↔ x ∈ l.
Proof.
  unfold unique. rewrite elem_of_unique_from, elem_of_nil. tauto.
Qed.

Lemma NoDup_unique l : NoDup (unique l).
Proof. apply NoDup_unique_from. Qed.

(** [nunique] counts the distinct non-null cells: any duplicate-free list
    of exactly the non-null values of the series has that length. *)
Lemma nunique_distinct s l :
  NoDup l → (∀ x, x ∈ l ↔ Some x ∈ s) → nunique s = length l.
Proof.
  intros Hl Hs. unfold nunique. apply Permutation_length.
  apply NoDup_Permutation; [apply NoDup_unique | done |].
  intros x. by rewrite elem_of_unique, elem_of_dropna, Hs.
Qed.

Lemma nunique_le_length s : nunique s ≤ length s.
Proof.
  unfold nunique, unique.
  pose proof (length_unique_from [] (dropna s)).
  pose proof (length_dropna s). lia.
Qed.
End SeriesFacts.

(** ** Sorting *)

Lemma sorted_Permutation l : sorted l ≡ₚ l.
Proof. apply merge_sort_Permutation. Qed.

Lemma sorted_Sorted l : Sorted String.le (sorted l).
Proof. apply Sorted_merge_sort, _. Qed.

Lemma elem_of_sorted l x : x ∈ sorted l ↔ x ∈ l.
Proof. by rewrite sorted_Permutation. Qed.

Lemma length_sorted l : length (sorted l) = length l.
Proof. by rewrite sorted_Permutation. Qed.

Lemma Sorted_strict (l : list string) :
  Sorted String.le l → NoDup l → Sorted str_lt l.
Proof.
  induction 1 as [|a l Hl IH Hhd]; intros Hnd; [constructor|].
  apply NoDup_cons in Hnd as [Ha Hnd].
  constructor; [by apply IH|].
  destruct Hhd as [|b l' Hab]; constructor.
  split; [done|]. intros ->. apply Ha. by left.
Qed.

(** ** Minimum and maximum of a series *)

Lemma foldl_min_spec (t : list Z) (x : Z) :
  foldl Z.min x t ∈ x :: t ∧ ∀ y, y ∈ x :: t → (foldl Z.min x t ≤ y)%Z.
Proof.
  revert x. induction t as [|a t IH]; intros x; simpl.
  - split; [by left|]. intros y Hy. apply list_elem_of_singleton in Hy. lia.
  - destruct (IH (Z.min x a)) as [Hin Hle]. split.
    + apply elem_of_cons in Hin as [Hm | Hin].
      * rewrite Hm. destruct (Z.min_spec x a) as [[_ ->] | [_ ->]].
        -- by left.
        -- right. by left.
      * right. by right.
    + intros y Hy.
      assert (foldl Z.min (Z.min x a) t ≤ Z.min x a)%Z as Hm
        by (apply Hle; by left).
      apply elem_of_cons in Hy as [-> | Hy]; [lia|].
      apply elem_of_cons in Hy as [-> | Hy]; [lia|].
      apply Hle. by right.
Qed.

Lemma foldl_max_spec (t : list Z) (x : Z) :
  foldl Z.max x t ∈ x :: t ∧ ∀ y, y ∈ x :: t → (y ≤ foldl Z.max x t)%Z.
Proof.
  revert x. induction t as [|a t IH]; intros x; simpl.
  - split; [by left|]. intros y Hy. apply list_elem_of_singleton in Hy. lia.
  - destruct (IH (Z.max x a)) as [Hin Hle]. split.
    + apply elem_of_cons in Hin as [Hm | Hin].
      * rewrite Hm. destruct (Z.max_spec x a) as [[_ ->] | [_ ->]].
        -- right. by left.
        -- by left.
      * right. by right.
    + intros y Hy.
      assert (Z.max x a ≤ foldl Z.max (Z.max x a) t)%Z as Hm
        by (apply Hle; by left).
      apply elem_of_cons in Hy as [-> | Hy]; [lia|].
      apply elem_of_cons in Hy as [-> | Hy]; [lia|].
      apply Hle. by right.
Qed.

Lemma series_min_Some s y0 :
  Some y0 ∈ s → ∃ lo, series_min s = Some lo ∧ is_min s lo.
Proof.
  intros Hy0. unfold series_min, is_min.
  apply elem_of_dropna in Hy0.
  destruct (dropna s) as [|x t] eqn:Hd; [by apply elem_of_nil in Hy0|].
  destruct (foldl_min_spec t x) as [Hin Hle].
  exists (foldl Z.min x t). split; [done|]. split.
  - apply elem_of_dropna. by rewrite Hd.
  - intros y Hy. apply Hle. rewrite <- Hd. by apply elem_of_dropna.
Qed.

Lemma series_max_Some s y0 :
  Some y0 ∈ s → ∃ hi, series_max s = Some hi ∧ is_max s hi.
Proof.
  intros Hy0. unfold series_max, is_max.
  apply elem_of_dropna in Hy0.
  destruct (dropna s) as [|x t] eqn:Hd; [by apply elem_of_nil in Hy0|].
  destruct (foldl_max_spec t x) as [Hin Hle].
  exists (foldl Z.max x t). split; [done|]. split.
  - apply elem_of_dropna. by rewrite Hd.
  - intros y Hy. apply Hle. rewrite <- Hd. by apply elem_of_dropna.
Qed.

Lemma series_min_all_null s : (∀ y, Some y ∉ s) → series_min s = None.
Proof.
  intros Hs. unfold series_min.
  destruct (dropna s) as [|x t] eqn:Hd; [done|].
  exfalso. apply (Hs x), elem_of_dropna. rewrite Hd. by left.
Qed.

(** ** The page of a table *)

Section Page.
Context {number : Type}.
Implicit Types (df : DataFrame number) (DATA_PATH : string).

(** The four metrics with their values, left to right. *)
Lemma render_ready DATA_PATH df lo hi :
  empty df = false → year_min df = Ok lo → year_max df = Ok hi →
  render DATA_PATH df =
    (Markdown HERO_HTML true
       :: Columns
            [ [Metric "Countries" (py_format_comma (Z.of_nat (countries df)))];
              [Metric "Indicators"
                 (py_format_comma (Z.of_nat (length (indicators df))))];
              [Metric "Years" (years_text lo hi)];
              [Metric "Rows" (py_format_comma (Z.of_nat (len df)))] ]
       :: body (preview df),
     Completed).
Proof. intros He Hlo Hhi. unfold render. by rewrite He, Hlo, Hhi. Qed.

Lemma render_halt DATA_PATH df :
  empty df = true →
  render DATA_PATH df =
    ([Markdown HERO_HTML true; Warning (warning_text DATA_PATH)], Stopped).
Proof. intros He. unfold render. by rewrite He. Qed.

Lemma shown_metrics_ready DATA_PATH df lo hi :
  empty df = false → year_min df = Ok lo → year_max df = Ok hi →
  shown_metrics (render DATA_PATH df).1 =
    [ ("Countries", py_format_comma (Z.of_nat (countries df)));
      ("Indicators", py_format_comma (Z.of_nat (length (indicators df))));
      ("Years", years_text lo hi);
      ("Rows", py_format_comma (Z.of_nat (len df))) ].
Proof.
  intros He Hlo Hhi. by rewrite (render_ready _ _ lo hi).
Qed.

(** A run that does not complete shows no metric. *)
Lemma shown_metrics_not_completed DATA_PATH df :
  (render DATA_PATH df).2 ≠ Completed →
  shown_metrics (render DATA_PATH df).1 = [].
Proof.
  unfold render. destruct (empty df); [done|].
  destruct (year_min df); [|done]. destruct (year_max df); done.
Qed.

Lemma render_completed_inv DATA_PATH df :
  (render DATA_PATH df).2 = Completed →
  empty df = false ∧ ∃ lo hi, year_min df = Ok lo ∧ year_max df = Ok hi.
Proof.
  unfold render. destruct (empty df); [done|].
  destruct (year_min df) as [lo|]; [|done].
  destruct (year_max df) as [hi|]; [|done]. eauto.
Qed.

(** Every metric on the page of a table is one of the four, with the value
    computed on lines 55 to 59. *)
Lemma shown_metrics_inv DATA_PATH df label v :
  (label, v) ∈ shown_metrics (render DATA_PATH df).1 →
  ∃ lo hi, year_min df = Ok lo ∧ year_max df = Ok hi ∧
    ((label = "Countries" ∧ v = py_format_comma (Z.of_nat (countries df))) ∨
     (label = "Indicators"
        ∧ v = py_format_comma (Z.of_nat (length (indicators df)))) ∨
     (label = "Years" ∧ v = years_text lo hi) ∨
     (label = "Rows" ∧ v = py_format_comma (Z.of_nat (len df)))).
Proof.
  intros Hin.
  destruct (decide ((render DATA_PATH df).2 = Completed)) as [Hc|Hc].
  - apply render_completed_inv in Hc as (He & lo & hi & Hlo & Hhi).
    rewrite (shown_metrics_ready _ _ lo hi) in Hin by done.
    exists lo, hi. split; [done|]. split; [done|].
    rewrite !elem_of_cons, elem_of_nil in Hin.
    destruct Hin as [Hp|[Hp|[Hp|[Hp|[]]]]]; injection Hp as -> ->; tauto.
  - rewrite shown_metrics_not_completed in Hin by done.
    by apply elem_of_nil in Hin.
Qed.

(** The year range of a table with no [year] column, or with a year in
    it. *)
Lemma year_min_absent df : has_column df "year" = false → year_min df = Ok None.
Proof. intros H. unfold year_min. by rewrite H. Qed.

Lemma year_max_absent df : has_column df "year" = false → year_max df = Ok None.
Proof. intros H. unfold year_max. by rewrite H. Qed.

Lemma year_min_present df y0 :
  has_column df "year" = true → Some y0 ∈ getitem df year →
  ∃ lo, year_min df = Ok (Some lo) ∧ is_min (getitem df year) lo.
Proof.
  intros H Hy. destruct (series_min_Some _ _ Hy) as (lo & Hlo & Hmin).
  exists lo. split; [|done]. unfold year_min. by rewrite H, Hlo.
Qed.

Lemma year_max_present df y0 :
  has_column df "year" = true → Some y0 ∈ getitem df year →
  ∃ hi, year_max df = Ok (Some hi) ∧ is_max (getitem df year) hi.
Proof.
  intros H Hy. destruct (series_max_Some _ _ Hy) as (hi & Hhi & Hmax).
  exists hi. split; [|done]. unfold year_max. by rewrite H, Hhi.
Qed.

Lemma year_min_all_null df :
  has_column df "year" = true → (∀ y, Some y ∉ getitem df year) →
  year_min df = Raise IntOfMissing.
Proof.
  intros H Hnull. unfold year_min. by rewrite H, series_min_all_null.
Qed.

(** A [year] column without a single year ends the run on line 57, with
    the header alone on the page. *)
Lemma render_all_null_years DATA_PATH df :
  empty df = false →
  has_column df "year" = true → (∀ y, Some y ∉ getitem df year) →
  render DATA_PATH df = ([Markdown HERO_HTML true], Raised IntOfMissing).
Proof.
  intros He H Hnull. unfold render.
  by rewrite He, (year_min_all_null df H Hnull).
Qed.
End Page.

(** ** The empty table: warning and stop *)








(** ** The Years metric and the order of the four metrics *)

Example years_metric_dated :
  shown_metrics (render SAMPLE_PATH dated_rows).1 =
    [("Countries", "2"); ("Indicators", "2"); ("Years", "1999 → 2003");
     ("Rows", "3")].
Proof. vm_compute. reflexivity. Qed.

(** ** Countries and Indicators: distinct counts *)

Section Distinct.
Context {A : Type} `{EqDecision A}.
Implicit Types (s : list (option A)) (l seen : list A).

Lemma length_unique_from_eq seen l :
  length (unique_from seen l) = length l →
  NoDup l ∧ ∀ x, x ∈ l → x ∉ seen.
Proof.
  revert seen. induction l as [|y l IH]; intros seen; simpl.
  - intros _. split; [constructor|]. intros x Hx. by apply elem_of_nil in Hx.
  - case_bool_decide as Hy.
    + intros Hlen. pose proof (length_unique_from seen l). lia.
    + simpl. intros Hlen. destruct (IH (y :: seen)) as [Hnd Hseen]; [lia|].
      split.
      * constructor; [|done]. intros Hyl. apply (Hseen y Hyl). by left.
      * intros x Hx. apply elem_of_cons in Hx as [-> | Hx]; [done|].
        intros Hxs. apply (Hseen x Hx). by right.
Qed.

(** A repeated value makes the distinct count fall below the length. *)
Lemma nunique_lt_length s : ¬ NoDup (dropna s) → nunique s < length s.
Proof.
  intros Hdup. unfold nunique, unique.
  pose proof (length_unique_from [] (dropna s)) as Hle.
  pose proof (length_dropna s) as Hd.
  destruct (decide (length (unique_from [] (dropna s)) = length (dropna s)))
    as [Heq|Hne]; [|lia].
  apply length_unique_from_eq in Heq as [Hnd _]. by destruct Hdup.
Qed.
End Distinct.

Section Counts.
Context {number : Type}.
Implicit Types (df : DataFrame number) (DATA_PATH : string).

Lemma dropna_without_null {A} (field : Row number → option A) df :
  dropna (getitem (without_null field df) field) = dropna (getitem df field).
Proof.
  unfold getitem, without_null. simpl.
  induction (rows df) as [|r l IH]; [done|].
  rewrite filter_cons. destruct (decide (is_Some (field r))) as [Hs|Hn].
  - destruct Hs as [a Ha]. simpl. rewrite Ha.
    change (a :: dropna (map field (filter (λ r, is_Some (field r)) l))
            = a :: dropna (map field l)).
    by rewrite IH.
  - rewrite IH. simpl. destruct (field r) as [a|] eqn:Ha; [|done].
    destruct Hn. by exists a.
Qed.

Lemma length_null_split {A} (field : Row number → option A) df :
  len df = (len (without_null field df) + length (null_rows field df))%nat.
Proof.
  unfold len, without_null, null_rows. simpl.
  induction (rows df) as [|r l IH]; [done|].
  rewrite !filter_cons.
  repeat case_decide; simpl; try lia; tauto.
Qed.

Lemma has_column_without_null {A} (field : Row number → option A) df c :
  has_column (without_null field df) c = has_column df c.
Proof. done. Qed.
End Counts.

Section Metrics.
Context {number : Type}.
Implicit Types (df : DataFrame number) (DATA_PATH : string).

Lemma countries_distinct df :
  has_column df "country_code" = true →
  ∃ codes, NoDup codes
    ∧ (∀ c, c ∈ codes ↔ Some c ∈ getitem df country_code)
    ∧ countries df = length codes.
Proof.
  intros Hc. exists (unique (dropna (getitem df country_code))).
  split; [apply NoDup_unique|]. split.
  - intros c. by rewrite elem_of_unique, elem_of_dropna.
  - unfold countries. by rewrite Hc.
Qed.

Lemma indicators_NoDup df : NoDup (indicators df).
Proof.
  unfold indicators. destruct (has_column df "indicator_name"); [|constructor].
  rewrite sorted_Permutation. apply NoDup_unique.
Qed.

Lemma indicators_Sorted df : Sorted str_lt (indicators df).
Proof.
  apply Sorted_strict; [|apply indicators_NoDup].
  unfold indicators. destruct (has_column df "indicator_name"); [|constructor].
  apply sorted_Sorted.
Qed.

Lemma elem_of_indicators df x :
  has_column df "indicator_name" = true →
  x ∈ indicators df ↔ Some x ∈ getitem df indicator_name.
Proof.
  intros Hc. unfold indicators. rewrite Hc.
  by rewrite elem_of_sorted, elem_of_unique, elem_of_dropna.
Qed.

Lemma length_indicators df :
  has_column df "indicator_name" = true →
  length (indicators df) = nunique (getitem df indicator_name).
Proof.
  intros Hc. unfold indicators, nunique. rewrite Hc. apply length_sorted.
Qed.

(** The value of a metric on the page, by its label. *)
Lemma shown_countries DATA_PATH df v :
  ("Countries", v) ∈ shown_metrics (render DATA_PATH df).1 →
  v = py_format_comma (Z.of_nat (countries df)).
Proof.
  intros Hin. apply shown_metrics_inv in Hin as (lo & hi & _ & _ & Hv).
  destruct Hv as [[_ ->]|[[? _]|[[? _]|[? _]]]]; done.
Qed.

Lemma shown_indicators DATA_PATH df v :
  ("Indicators", v) ∈ shown_metrics (render DATA_PATH df).1 →
  v = py_format_comma (Z.of_nat (length (indicators df))).
Proof.
  intros Hin. apply shown_metrics_inv in Hin as (lo & hi & _ & _ & Hv).
  destruct Hv as [[? _]|[[_ ->]|[[? _]|[? _]]]]; done.
Qed.

(** A completed run shows the four metrics. *)
Lemma shown_metrics_completed DATA_PATH df :
  (render DATA_PATH df).2 = Completed →
  ∃ years,
    shown_metrics (render DATA_PATH df).1 =
      [ ("Countries", py_format_comma (Z.of_nat (countries df)));
        ("Indicators", py_format_comma (Z.of_nat (length (indicators df))));
        ("Years", years);
        ("Rows", py_format_comma (Z.of_nat (len df))) ].
Proof.
  intros Hc. apply render_completed_inv in Hc as (He & lo & hi & Hlo & Hhi).
  exists (years_text lo hi). by apply shown_metrics_ready.
Qed.
End Metrics.

(** ** The dataset preview *)

Section Preview.
Context {number : Type}.
Implicit Types (df : DataFrame number) (DATA_PATH : string).

Lemma rows_preview df :
  rows (preview df) = map (project (show_cols df)) (take 50 (rows df)).
Proof. unfold preview, head, getitem_list. simpl. apply firstn_map. Qed.

Lemma columns_preview df : columns (preview df) = show_cols df.
Proof. done. Qed.

Lemma shown_dataframes_completed DATA_PATH df :
  (render DATA_PATH df).2 = Completed →
  shown_dataframes (render DATA_PATH df).1 = [preview df].
Proof.
  intros Hc. apply render_completed_inv in Hc as (He & lo & hi & Hlo & Hhi).
  by rewrite (render_ready _ _ lo hi).
Qed.

Lemma elem_of_show_cols df c :
  c ∈ show_cols df ↔ c ∈ PREVIEW_COLUMNS ∧ c ∈ columns df.
Proof.
  unfold show_cols, has_column. rewrite list_elem_of_filter.
  rewrite bool_decide_eq_true. tauto.
Qed.

Lemma show_cols_sublist df : show_cols df `sublist_of` PREVIEW_COLUMNS.
Proof. apply sublist_filter. Qed.

Lemma show_cols_same_labels df df' :
  (∀ c, c ∈ columns df' ↔ c ∈ columns df) → show_cols df' = show_cols df.
Proof.
  intros Hsame. unfold show_cols, has_column. apply list_filter_iff.
  intros c. by rewrite !bool_decide_eq_true.
Qed.
End Preview.

(** ** Loading and the cache *)

Section Loading.
Context {number : Type}.
Implicit Types (df : DataFrame number) (fs : Storage number) (p : path)
  (cache : gmap string (DataFrame number)).

Lemma load_data_hit cache fs p df :
  cache !! p = Some df → load_data cache fs p = (Ok df, cache, []).
Proof. intros Hp. unfold load_data. by rewrite Hp. Qed.

Lemma load_data_miss_absent cache fs p :
  cache !! p = None → path_exists fs p = false →
  load_data cache fs p =
    (Ok empty_frame, <[p := empty_frame]> cache, [Exists p]).
Proof.
  intros Hp Hfs. unfold load_data, load_data_body. by rewrite Hp, Hfs.
Qed.

Lemma load_data_miss_read cache fs p df :
  cache !! p = None → path_exists fs p = true → read_parquet fs p = Ok df →
  load_data cache fs p =
    (Ok df, <[p := df]> cache, [Exists p; ReadParquet p]).
Proof.
  intros Hp Hfs Hread. unfold load_data, load_data_body.
  by rewrite Hp, Hfs, Hread.
Qed.

(** A returned table is in the cache afterwards, under its path, and no
    other entry has changed. *)
Lemma load_data_Ok_cached cache cache' fs p df io :
  load_data cache fs p = (Ok df, cache', io) →
  cache' !! p = Some df ∧ ∀ q, q ≠ p → cache' !! q = cache !! q.
Proof.
  unfold load_data. destruct (cache !! p) as [df0|] eqn:Hp.
  - intros [= <- <- _]. done.
  - destruct (load_data_body fs p) as [[df1|e] io1]; [|done].
    intros [= <- <- _]. split; [apply lookup_insert_eq|].
    intros q Hq. by apply lookup_insert_ne.
Qed.

(** The page of a run, from what [load_data] returned. *)
Lemma Home_loaded (DATA_PATH : string) cache cache' fs df io :
  load_data cache fs DATA_PATH = (Ok df, cache', io) →
  Home DATA_PATH cache fs =
    mkRun (PageConfig "Global Economy Dashboard" "wide" "expanded"
             :: (render DATA_PATH df).1)
          (render DATA_PATH df).2 cache' io.
Proof.
  intros Hload. unfold Home. rewrite Hload.
  by destruct (render DATA_PATH df).
Qed.
End Loading.

(** C8.  When a call of [load_data] with a path returns a table, every
    later call with that path, whatever the files have become and whatever
    other paths were loaded in between, returns the same table from the
    cache without any access to storage, and leaves the cache as it is.
    The entry is kept under the path: entries of other paths are not
    touched by the call. *)
Theorem load_data_memoized {number} (cache cache' later : gmap string (DataFrame number))
    (fs fs' : Storage number) (p : path) (df : DataFrame number) (io : list IO) :
  load_data cache fs p = (Ok df, cache', io) →
  cache' ⊆ later →
  load_data later fs' p = (Ok df, later, [])
  ∧ load_data cache' fs' p = (Ok df, cache', [])
  ∧ (∀ q, q ≠ p → cache' !! q = cache !! q).
Proof.
  intros Hload Hsub.
  apply load_data_Ok_cached in Hload as [Hp Hother].
  split; [|split; [|done]].
  - apply load_data_hit. by eapply lookup_weaken.
  - by apply load_data_hit.
Qed.

Lemma load_data_memoized_witness :
  load_data ∅ (one_file SAMPLE_PATH three_rows) SAMPLE_PATH =
    (Ok three_rows, {[SAMPLE_PATH := three_rows]},
     [Exists SAMPLE_PATH; ReadParquet SAMPLE_PATH])
  ∧ load_data {[SAMPLE_PATH := three_rows]} no_files SAMPLE_PATH =
      (Ok three_rows, {[SAMPLE_PATH := three_rows]}, []).
Proof.
  assert (load_data ∅ (one_file SAMPLE_PATH three_rows) SAMPLE_PATH =
            (Ok three_rows, {[SAMPLE_PATH := three_rows]},
             [Exists SAMPLE_PATH; ReadParquet SAMPLE_PATH])) as Hfirst
    by reflexivity.
  split; [exact Hfirst|].
  destruct (load_data_memoized ∅ _ {[SAMPLE_PATH := three_rows]}
              _ no_files _ _ _ Hfirst (reflexivity _)) as (_ & Hsecond & _).
  exact Hsecond.
Defined.

(** ** A missing file *)

(** C1, as stated, fails once a table is cached for the path.  In a fresh
    process the file is there and is loaded; then the file is removed; the
    next call returns the cached table, which has three rows. *)
Lemma load_missing_file_counterexample :
  load_data ∅ (one_file SAMPLE_PATH three_rows) SAMPLE_PATH =
    (Ok three_rows, {[SAMPLE_PATH := three_rows]},
     [Exists SAMPLE_PATH; ReadParquet SAMPLE_PATH])
  ∧ path_exists no_files SAMPLE_PATH = false
  ∧ load_data {[SAMPLE_PATH := three_rows]} no_files SAMPLE_PATH =
      (Ok three_rows, {[SAMPLE_PATH := three_rows]}, [])
  ∧ empty three_rows = false.
Proof. done. Qed.

(** C1, amended.  For a path at which nothing exists, the body of
    [load_data] returns the empty table and raises nothing, its only
    access to storage being the test of existence; so does [load_data]
    when no table is cached for the path, and it caches the empty table;
    when a table is cached for the path, [load_data] returns that one. *)
Theorem load_missing_file {number} (cache : gmap string (DataFrame number))
    (fs : Storage number) (p : path) :
  path_exists fs p = false →
  load_data_body fs p = (Ok empty_frame, [Exists p])
  ∧ empty (@empty_frame number) = true
  ∧ (cache !! p = None →
       load_data cache fs p =
         (Ok empty_frame, <[p := empty_frame]> cache, [Exists p]))
  ∧ (∀ df, cache !! p = Some df → load_data cache fs p = (Ok df, cache, [])).
Proof.
  intros Hfs. split; [|split; [done|split]].
  - unfold load_data_body. by rewrite Hfs.
  - intros Hp. by apply load_data_miss_absent.
  - intros df. apply load_data_hit.
Qed.

Lemma load_missing_file_witness :
  path_exists no_files SAMPLE_PATH = false
  ∧ load_data ∅ no_files SAMPLE_PATH =
      (Ok empty_frame, {[SAMPLE_PATH := empty_frame]}, [Exists SAMPLE_PATH]).
Proof.
  split; [reflexivity|].
  destruct (load_missing_file ∅ no_files SAMPLE_PATH eq_refl)
    as (_ & _ & Hmiss & _).
  exact (Hmiss (lookup_empty _)).
Defined.

(** ** A missing file and a file without rows *)

(** C9, as stated, fails once a table is cached for the path.  The file is
    loaded with three rows; then it is replaced by a file with no row; the
    next run gets the cached table and draws the whole page. *)
Lemma absent_or_empty_file_counterexample :
  load_data ∅ (one_file SAMPLE_PATH three_rows) SAMPLE_PATH =
    (Ok three_rows, {[SAMPLE_PATH := three_rows]},
     [Exists SAMPLE_PATH; ReadParquet SAMPLE_PATH])
  ∧ read_parquet (one_file SAMPLE_PATH zero_rows) SAMPLE_PATH = Ok zero_rows
  ∧ rows zero_rows = []
  ∧ load_data {[SAMPLE_PATH := three_rows]} (one_file SAMPLE_PATH zero_rows)
      SAMPLE_PATH = (Ok three_rows, {[SAMPLE_PATH := three_rows]}, [])
  ∧ empty three_rows = false
  ∧ outcome (Home SAMPLE_PATH {[SAMPLE_PATH := three_rows]}
               (one_file SAMPLE_PATH zero_rows)) = Completed.
Proof. done. Qed.

(** C9, amended.  Take a path at which nothing exists in one file system
    and at which a file without rows exists in another.  From the same
    cache, a run of the page in the one and in the other draws the same
    page and ends the same way.  When no table is cached for the path,
    [load_data] returns an empty table in both, and both runs draw the
    header and the same warning and stop. *)
Theorem absent_or_empty_file_alike {number} (DATA_PATH : string)
    (cache : gmap string (DataFrame number))
    (fs_absent fs_empty : Storage number) (df0 : DataFrame number) :
  path_exists fs_absent DATA_PATH = false →
  path_exists fs_empty DATA_PATH = true →
  read_parquet fs_empty DATA_PATH = Ok df0 →
  rows df0 = [] →
  page (Home DATA_PATH cache fs_absent) = page (Home DATA_PATH cache fs_empty)
  ∧ outcome (Home DATA_PATH cache fs_absent)
    = outcome (Home DATA_PATH cache fs_empty)
  ∧ (cache !! DATA_PATH = None →
       (load_data cache fs_absent DATA_PATH).1.1 = Ok empty_frame
       ∧ (load_data cache fs_empty DATA_PATH).1.1 = Ok df0
       ∧ empty (@empty_frame number) = true
       ∧ empty df0 = true
       ∧ page (Home DATA_PATH cache fs_empty) =
           [ PageConfig "Global Economy Dashboard" "wide" "expanded";
             Markdown HERO_HTML true;
             Warning (warning_text DATA_PATH) ]
       ∧ outcome (Home DATA_PATH cache fs_empty) = Stopped).
Proof.
  intros Habsent Hexists Hread Hrows.
  assert (empty df0 = true) as He0.
  { unfold empty. rewrite Hrows. apply orb_true_r. }
  destruct (cache !! DATA_PATH) as [df|] eqn:Hp.
  - rewrite (Home_loaded _ _ _ _ _ _ (load_data_hit cache fs_absent _ _ Hp)).
    rewrite (Home_loaded _ _ _ _ _ _ (load_data_hit cache fs_empty _ _ Hp)).
    done.
  - pose proof (load_data_miss_absent cache fs_absent _ Hp Habsent) as Ha.
    pose proof (load_data_miss_read cache fs_empty _ _ Hp Hexists Hread) as Hz.
    rewrite (Home_loaded _ _ _ _ _ _ Ha), (Home_loaded _ _ _ _ _ _ Hz).
    rewrite (render_halt DATA_PATH df0 He0).
    rewrite (render_halt DATA_PATH empty_frame eq_refl).
    rewrite Ha, Hz. done.
Qed.

Lemma absent_or_empty_file_alike_witness :
  path_exists no_files SAMPLE_PATH = false
  ∧ path_exists (one_file SAMPLE_PATH zero_rows) SAMPLE_PATH = true
  ∧ read_parquet (one_file SAMPLE_PATH zero_rows) SAMPLE_PATH = Ok zero_rows
  ∧ rows zero_rows = []
  ∧ page (Home SAMPLE_PATH ∅ no_files)
    = page (Home SAMPLE_PATH ∅ (one_file SAMPLE_PATH zero_rows))
  ∧ outcome (Home SAMPLE_PATH ∅ no_files) = Stopped.
Proof.
  split; [reflexivity|]. split; [reflexivity|]. split; [reflexivity|].
  split; [reflexivity|].
  destruct (absent_or_empty_file_alike SAMPLE_PATH ∅ no_files
              (one_file SAMPLE_PATH zero_rows) zero_rows
              eq_refl eq_refl eq_refl eq_refl) as (Hpage & Hout & Hfresh).
  split; [exact Hpage|].
  destruct (Hfresh (lookup_empty _)) as (_ & _ & _ & _ & _ & Hstop).
  rewrite Hout. exact Hstop.
Defined.

(** * Further properties of the script *)

(** ** What [load_data] does to storage and to the cache *)

(** X1.  Whatever a call of [load_data] returns: the cache afterwards
    extends the cache before (no entry is dropped or replaced); storage is
    left alone exactly when a table is cached for the path, and is
    otherwise asked whether the path exists and, only if it does, read
    once, at that path and no other; what a read gives is what the call
    returns, unchanged; a returned table is cached under the path, and an
    exception leaves the cache as it was. *)
Theorem load_data_storage_discipline {number}
    (cache cache' : gmap string (DataFrame number)) (fs : Storage number)
    (p : path) (r : result (DataFrame number)) (io : list IO) :
  load_data cache fs p = (r, cache', io) →
  cache ⊆ cache'
  ∧ (io = [] ↔ is_Some (cache !! p))
  ∧ (cache !! p = None →
       (path_exists fs p = false ∧ io = [Exists p] ∧ r = Ok empty_frame)
       ∨ (path_exists fs p = true ∧ io = [Exists p; ReadParquet p]
          ∧ r = read_parquet fs p))
  ∧ (∀ df, r = Ok df → cache' !! p = Some df)
  ∧ (∀ e, r = Raise e → cache' = cache).
Proof.
  unfold load_data, load_data_body.
  destruct (cache !! p) as [df0|] eqn:Hp.
  - intros [= <- <- <-]. split; [done|]. split; [by split; eauto|].
    split; [done|]. split; [by intros df [= <-]|done].
  - destruct (path_exists fs p) eqn:Hfs; simpl.
    + destruct (read_parquet fs p) as [df|e] eqn:Hread.
      * intros [= <- <- <-]. split; [by apply insert_subseteq|].
        split; [split; [done|by intros [? ?]]|].
        split; [by right|].
        split; [intros ? [= <-]; apply lookup_insert_eq|done].
      * intros [= <- <- <-]. split; [done|].
        split; [split; [done|by intros [? ?]]|].
        split; [by right|]. done.
    + intros [= <- <- <-]. split; [by apply insert_subseteq|].
      split; [split; [done|by intros [? ?]]|].
      split; [by left|].
      split; [intros ? [= <-]; apply lookup_insert_eq|done].
Qed.

Lemma load_data_storage_discipline_witness :
  load_data ∅ (one_file SAMPLE_PATH three_rows) SAMPLE_PATH =
    (Ok three_rows, {[SAMPLE_PATH := three_rows]},
     [Exists SAMPLE_PATH; ReadParquet SAMPLE_PATH])
  ∧ (∅ : gmap string (DataFrame Z)) ⊆ {[SAMPLE_PATH := three_rows]}
  ∧ ({[SAMPLE_PATH := three_rows]} : gmap string (DataFrame Z)) !! SAMPLE_PATH
    = Some three_rows.
Proof.
  assert (load_data ∅ (one_file SAMPLE_PATH three_rows) SAMPLE_PATH =
            (Ok three_rows, {[SAMPLE_PATH := three_rows]},
             [Exists SAMPLE_PATH; ReadParquet SAMPLE_PATH])) as Hcall
    by reflexivity.
  split; [exact Hcall|].
  destruct (load_data_storage_discipline _ _ _ _ _ _ Hcall)
    as (Hsub & _ & _ & Hcached & _).
  split; [exact Hsub|]. exact (Hcached three_rows eq_refl).
Defined.

(** ** A file that cannot be read *)

(** X2.  When nothing is cached for the data path and the file is there
    but [pd.read_parquet] raises, the run ends on line 24 with that
    exception: the page configuration is all there is on the page, and
    nothing is cached.  So the next run goes to storage again, and when
    the file can then be read it draws the page of the table read and
    caches that table. *)
Theorem Home_read_failure_not_cached {number} (DATA_PATH : string)
    (cache : gmap string (DataFrame number)) (fs fs' : Storage number)
    (e : Exn) (df : DataFrame number) :
  cache !! DATA_PATH = None →
  path_exists fs DATA_PATH = true →
  read_parquet fs DATA_PATH = Raise e →
  path_exists fs' DATA_PATH = true →
  read_parquet fs' DATA_PATH = Ok df →
  Home DATA_PATH cache fs =
    mkRun [PageConfig "Global Economy Dashboard" "wide" "expanded"]
      (Raised e) cache [Exists DATA_PATH; ReadParquet DATA_PATH]
  ∧ Home DATA_PATH (cache_after (Home DATA_PATH cache fs)) fs' =
      mkRun (PageConfig "Global Economy Dashboard" "wide" "expanded"
               :: (render DATA_PATH df).1)
        (render DATA_PATH df).2 (<[DATA_PATH := df]> cache)
        [Exists DATA_PATH; ReadParquet DATA_PATH].
Proof.
  intros Hp Hfs Hread Hfs' Hread'.
  assert (Home DATA_PATH cache fs =
            mkRun [PageConfig "Global Economy Dashboard" "wide" "expanded"]
              (Raised e) cache [Exists DATA_PATH; ReadParquet DATA_PATH])
    as Hrun.
  { unfold Home, load_data, load_data_body. by rewrite Hp, Hfs, Hread. }
  split; [done|]. rewrite Hrun. simpl.
  apply Home_loaded. by apply load_data_miss_read.
Qed.

Lemma Home_read_failure_not_cached_witness :
  outcome (Home SAMPLE_PATH ∅ (unreadable_file SAMPLE_PATH)) = Raised ReadError
  ∧ outcome (Home SAMPLE_PATH
               (cache_after (Home SAMPLE_PATH ∅ (unreadable_file SAMPLE_PATH)))
               (one_file SAMPLE_PATH three_rows)) = Completed.
Proof.
  destruct (Home_read_failure_not_cached SAMPLE_PATH ∅
              (unreadable_file SAMPLE_PATH) (one_file SAMPLE_PATH three_rows)
              ReadError three_rows (lookup_empty _) eq_refl eq_refl eq_refl
              eq_refl) as [Hfirst Hsecond].
  split; [by rewrite Hfirst|]. by rewrite Hsecond.
Defined.

(** ** How a run ends *)

Lemma series_has_year_dec (s : list (option Z)) :
  (∃ y, Some y ∈ s) ∨ (∀ y, Some y ∉ s).
Proof.
  destruct (dropna s) as [|x t] eqn:Hd.
  - right. intros y Hy. apply elem_of_dropna in Hy. rewrite Hd in Hy.
    by apply elem_of_nil in Hy.
  - left. exists x. apply elem_of_dropna. rewrite Hd. by left.
Qed.

Section Outcomes.
Context {number : Type}.
Implicit Types (df : DataFrame number) (DATA_PATH : string).

Lemma render_completes DATA_PATH df :
  empty df = false →
  (has_column df "year" = false ∨ ∃ y, Some y ∈ getitem df year) →
  (render DATA_PATH df).2 = Completed.
Proof.
  intros He [Hy | [y Hy]].
  - by rewrite (render_ready _ _ None None)
      by auto using year_min_absent, year_max_absent.
  - destruct (has_column df "year") eqn:Hc.
    + destruct (year_min_present df y Hc Hy) as (lo & Hlo & _).
      destruct (year_max_present df y Hc Hy) as (hi & Hhi & _).
      by rewrite (render_ready _ _ (Some lo) (Some hi)).
    + by rewrite (render_ready _ _ None None)
        by auto using year_min_absent, year_max_absent.
Qed.

(** The three ways a table can go. *)
Lemma render_cases DATA_PATH df :
  (empty df = true ∧ (render DATA_PATH df).2 = Stopped)
  ∨ (empty df = false
     ∧ (has_column df "year" = false ∨ ∃ y, Some y ∈ getitem df year)
     ∧ (render DATA_PATH df).2 = Completed)
  ∨ (empty df = false ∧ has_column df "year" = true
     ∧ (∀ y, Some y ∉ getitem df year)
     ∧ (render DATA_PATH df).2 = Raised IntOfMissing).
Proof.
  destruct (empty df) eqn:He.
  - left. by rewrite render_halt.
  - right. destruct (has_column df "year") eqn:Hc.
    + destruct (series_has_year_dec (getitem df year)) as [Hy | Hnull].
      * left. split; [done|]. split; [by right|].
        apply render_completes; [done | by right].
      * right. by rewrite render_all_null_years.
    + left. split; [done|]. split; [by left|].
      apply render_completes; [done | by left].
Qed.
End Outcomes.

(** X3.  The run on a table stops at the warning exactly when the table
    is empty; it completes exactly when the table is not empty and either
    has no [year] column or has a year in it; and the only exception it
    can raise is the one of [int] on line 57, exactly when a non-empty
    table has a [year] column without a single year.  The page holds the
    four metrics and the preview when the run completes, and none of them
    otherwise. *)
Theorem render_outcome {number} (DATA_PATH : string) (df : DataFrame number) :
  ((render DATA_PATH df).2 = Stopped ↔ empty df = true)
  ∧ ((render DATA_PATH df).2 = Completed ↔
       empty df = false
       ∧ (has_column df "year" = false ∨ ∃ y, Some y ∈ getitem df year))
  ∧ (∀ e, (render DATA_PATH df).2 = Raised e ↔
       e = IntOfMissing ∧ empty df = false ∧ has_column df "year" = true
       ∧ ∀ y, Some y ∉ getitem df year)
  ∧ ((render DATA_PATH df).2 = Completed →
       length (shown_metrics (render DATA_PATH df).1) = 4%nat
       ∧ shown_dataframes (render DATA_PATH df).1 = [preview df])
  ∧ ((render DATA_PATH df).2 ≠ Completed →
       shown_metrics (render DATA_PATH df).1 = []
       ∧ shown_dataframes (render DATA_PATH df).1 = []).
Proof.
  split; [|split; [|split; [|split]]].
  - destruct (render_cases DATA_PATH df)
      as [[He Ho] | [(He & _ & Ho) | (He & _ & _ & Ho)]];
      rewrite Ho, He; split; done.
  - destruct (render_cases DATA_PATH df)
      as [[He Ho] | [(He & Hy & Ho) | (He & Hc & Hnull & Ho)]];
      rewrite Ho, He; (split; [done|]).
    + by intros [? _].
    + done.
    + intros (_ & [Hno | [y Hy]]); [congruence|]. by destruct (Hnull y).
  - intros e. destruct (render_cases DATA_PATH df)
      as [[He Ho] | [(He & Hy & Ho) | (He & Hc & Hnull & Ho)]];
      rewrite Ho, He; split.
    + done.
    + by intros (_ & ? & _).
    + done.
    + intros (_ & _ & Hc & Hnull). destruct Hy as [Hno | [y Hy]];
        [congruence | by destruct (Hnull y)].
    + by intros [= <-].
    + by intros (-> & _).
  - intros Hc. split.
    + destruct (shown_metrics_completed _ _ Hc) as (years & ->). done.
    + by apply shown_dataframes_completed.
  - intros Hc. split; [by apply shown_metrics_not_completed|].
    revert Hc. unfold render. destruct (empty df); [done|].
    destruct (year_min df); [|done]. destruct (year_max df); done.
Qed.

(** ** Running the page again *)

(** X4.  Once a run has got a table from [load_data], every later run in
    the same process, whatever the files have become and whatever else
    was cached in between, draws the same page and ends the same way
    without any access to storage, and leaves the cache as it finds it.
    In particular a run that showed the warning because the file was
    missing keeps showing it after the file has been written. *)
Theorem Home_rerun_same_page {number} (DATA_PATH : string)
    (cache cache' later : gmap string (DataFrame number))
    (fs fs' : Storage number) (df : DataFrame number) (io : list IO) :
  load_data cache fs DATA_PATH = (Ok df, cache', io) →
  cache' ⊆ later →
  cache_after (Home DATA_PATH cache fs) = cache'
  ∧ Home DATA_PATH later fs' =
      mkRun (page (Home DATA_PATH cache fs)) (outcome (Home DATA_PATH cache fs))
        later [].
Proof.
  intros Hload Hsub.
  rewrite (Home_loaded _ _ _ _ _ _ Hload). simpl. split; [done|].
  apply load_data_Ok_cached in Hload as [Hp _].
  apply Home_loaded, load_data_hit. by eapply lookup_weaken.
Qed.

Lemma Home_rerun_same_page_witness :
  load_data ∅ no_files SAMPLE_PATH =
    (Ok empty_frame, {[SAMPLE_PATH := empty_frame]}, [Exists SAMPLE_PATH])
  ∧ outcome (Home SAMPLE_PATH ∅ no_files) = Stopped
  ∧ Home SAMPLE_PATH {[SAMPLE_PATH := empty_frame]}
      (one_file SAMPLE_PATH three_rows) =
      mkRun (page (Home SAMPLE_PATH ∅ no_files)) Stopped
        {[SAMPLE_PATH := empty_frame]} [].
Proof.
  assert (load_data ∅ no_files SAMPLE_PATH =
            (Ok (@empty_frame Z), {[SAMPLE_PATH := empty_frame]},
             [Exists SAMPLE_PATH])) as Hload by reflexivity.
  split; [exact Hload|]. split; [reflexivity|].
  destruct (Home_rerun_same_page SAMPLE_PATH ∅ _ {[SAMPLE_PATH := empty_frame]}
              no_files (one_file SAMPLE_PATH three_rows) _ _ Hload
              (reflexivity _)) as [_ Hagain].
  exact Hagain.
Defined.

(** ** The metrics do not depend on the order of the rows *)

Section SameValues.
Context {A : Type} `{EqDecision A}.
Implicit Types (s : list (option A)).

Lemma unique_dropna_Permutation s s' :
  (∀ x, Some x ∈ s ↔ Some x ∈ s') →
  unique (dropna s) ≡ₚ unique (dropna s').
Proof.
  intros Hsame. apply NoDup_Permutation; [apply NoDup_unique..|].
  intros x. by rewrite !elem_of_unique, !elem_of_dropna.
Qed.

Lemma nunique_same_values s s' :
  (∀ x, Some x ∈ s ↔ Some x ∈ s') → nunique s = nunique s'.
Proof.
  intros Hsame. unfold nunique.
  by apply Permutation_length, unique_dropna_Permutation.
Qed.
End SameValues.

Lemma sorted_same_values (l l' : list string) :
  l ≡ₚ l' → sorted l = sorted l'.
Proof.
  intros Hperm. apply (StronglySorted_unique String.le).
  - apply StronglySorted_merge_sort; apply _.
  - apply StronglySorted_merge_sort; apply _.
  - by rewrite !sorted_Permutation.
Qed.

Lemma series_min_same_values (s s' : list (option Z)) :
  (∀ y, Some y ∈ s ↔ Some y ∈ s') → series_min s = series_min s'.
Proof.
  intros Hsame.
  destruct (series_has_year_dec s) as [[y Hy] | Hnull].
  - destruct (series_min_Some s y Hy) as (lo & -> & Hin & Hle).
    destruct (series_min_Some s' y (proj1 (Hsame y) Hy))
      as (lo' & -> & Hin' & Hle').
    f_equal. apply Z.le_antisymm.
    + apply Hle. by apply Hsame.
    + apply Hle'. by apply Hsame.
  - rewrite !series_min_all_null; [done| |done].
    intros y Hy. apply (Hnull y). by apply Hsame.
Qed.

Lemma series_max_all_null (s : list (option Z)) :
  (∀ y, Some y ∉ s) → series_max s = None.
Proof.
  intros Hs. unfold series_max.
  destruct (dropna s) as [|x t] eqn:Hd; [done|].
  exfalso. apply (Hs x), elem_of_dropna. rewrite Hd. by left.
Qed.

Lemma series_max_same_values (s s' : list (option Z)) :
  (∀ y, Some y ∈ s ↔ Some y ∈ s') → series_max s = series_max s'.
Proof.
  intros Hsame.
  destruct (series_has_year_dec s) as [[y Hy] | Hnull].
  - destruct (series_max_Some s y Hy) as (hi & -> & Hin & Hle).
    destruct (series_max_Some s' y (proj1 (Hsame y) Hy))
      as (hi' & -> & Hin' & Hle').
    f_equal. apply Z.le_antisymm.
    + apply Hle'. by apply Hsame.
    + apply Hle. by apply Hsame.
  - rewrite !series_max_all_null; [done| |done].
    intros y Hy. apply (Hnull y). by apply Hsame.
Qed.

(** X5.  Two tables with the same column labels and the same rows in
    whatever order have the same Countries count, the same indicator
    list, the same least and greatest year and the same row count; their
    runs end the same way and show the same four metrics.  (The preview
    does follow the order of the rows.) *)
Theorem metrics_ignore_row_order {number} (DATA_PATH : string)
    (df df' : DataFrame number) :
  columns df' = columns df →
  rows df' ≡ₚ rows df →
  countries df' = countries df
  ∧ indicators df' = indicators df
  ∧ year_min df' = year_min df
  ∧ year_max df' = year_max df
  ∧ len df' = len df
  ∧ (render DATA_PATH df').2 = (render DATA_PATH df).2
  ∧ shown_metrics (render DATA_PATH df').1
    = shown_metrics (render DATA_PATH df).1.
Proof.
  intros Hcols Hrows.
  assert (∀ c, has_column df' c = has_column df c) as Hhas.
  { intros c. unfold has_column. by rewrite Hcols. }
  assert (∀ {B} (field : Row number → option B) x,
            x ∈ getitem df' field ↔ x ∈ getitem df field) as Hsame.
  { intros B field x. unfold getitem.
    change (x ∈ field <$> rows df' ↔ x ∈ field <$> rows df).
    by rewrite Hrows. }
  assert (countries df' = countries df) as Hc.
  { unfold countries. rewrite Hhas.
    destruct (has_column df "country_code"); [|done].
    apply nunique_same_values. intros x. apply Hsame. }
  assert (indicators df' = indicators df) as Hi.
  { unfold indicators. rewrite Hhas.
    destruct (has_column df "indicator_name"); [|done].
    apply sorted_same_values, unique_dropna_Permutation.
    intros x. apply Hsame. }
  assert (year_min df' = year_min df) as Hlo.
  { unfold year_min. rewrite Hhas. destruct (has_column df "year"); [|done].
    rewrite (series_min_same_values (getitem df' year) (getitem df year));
      [done|]. intros y. apply Hsame. }
  assert (year_max df' = year_max df) as Hhi.
  { unfold year_max. rewrite Hhas. destruct (has_column df "year"); [|done].
    rewrite (series_max_same_values (getitem df' year) (getitem df year));
      [done|]. intros y. apply Hsame. }
  assert (len df' = len df) as Hlen.
  { unfold len. by rewrite Hrows. }
  assert (empty df' = empty df) as He.
  { unfold empty. rewrite Hcols. f_equal.
    destruct (rows df) as [|r l] eqn:Hr.
    - apply Permutation_nil_r in Hrows. by rewrite Hrows.
    - destruct (rows df') as [|r' l'] eqn:Hr'; [|done].
      symmetry in Hrows. by apply Permutation_nil_r in Hrows. }
  do 5 (split; [done|]).
  unfold render. rewrite He, Hlo, Hhi, Hc, Hi, Hlen.
  destruct (empty df); [done|].
  destruct (year_min df); [|done]. destruct (year_max df); done.
Qed.

Lemma metrics_ignore_row_order_witness :
  columns dated_rows_shuffled = columns dated_rows
  ∧ rows dated_rows_shuffled ≡ₚ rows dated_rows
  ∧ rows dated_rows_shuffled ≠ rows dated_rows
  ∧ shown_metrics (render SAMPLE_PATH dated_rows_shuffled).1
    = shown_metrics (render SAMPLE_PATH dated_rows).1.
Proof.
  assert (rows dated_rows_shuffled ≡ₚ rows dated_rows) as Hperm.
  { unfold dated_rows_shuffled, dated_rows. simpl.
    apply (Permutation_cons_append [_; _]). }
  split; [reflexivity|]. split; [exact Hperm|]. split; [discriminate|].
  destruct (metrics_ignore_row_order SAMPLE_PATH dated_rows
              dated_rows_shuffled eq_refl Hperm)
    as (_ & _ & _ & _ & _ & _ & Hshown).
  exact Hshown.
Defined.

(** ** What the preview holds *)

(** X6.  The preview never has more than 50 rows (it has the smaller of
    50 and the row count) nor more than 6 columns; its columns are
    distinct and every one of them is a column of the table, so that the
    selection on line 181 never asks for a missing column. *)
Theorem preview_bounds {number} (df : DataFrame number) :
  len (preview df) = Nat.min 50 (len df)
  ∧ len (preview df) ≤ 50
  ∧ length (columns (preview df)) ≤ 6
  ∧ NoDup (columns (preview df))
  ∧ (∀ c, c ∈ columns (preview df) → has_column df c = true).
Proof.
  assert (len (preview df) = Nat.min 50 (len df)) as Hlen.
  { unfold len. by rewrite rows_preview, length_map, length_take. }
  split; [done|]. split; [lia|]. rewrite columns_preview.
  split; [apply (sublist_length _ _ (show_cols_sublist df))|]. split.
  - eapply sublist_NoDup; [|apply show_cols_sublist].
    unfold PREVIEW_COLUMNS. by apply (bool_decide_unpack _).
  - intros c Hc. apply elem_of_show_cols in Hc as [_ Hc].
    unfold has_column. by apply bool_decide_eq_true.
Qed.

Section PreviewCells.
Context {number : Type}.
Implicit Types (df : DataFrame number).

Lemma getitem_preview {A} df (label : string) (field : Row number → option A) :
  (∀ cols r, field (project cols r) = keep cols label (field r)) →
  label ∈ PREVIEW_COLUMNS →
  preview_shows df label field.
Proof.
  intros Hfield Hlabel. unfold preview_shows, getitem.
  rewrite rows_preview, map_map. split.
  - intros Hc. rewrite <- firstn_map. f_equal. apply map_ext.
    intros r. rewrite Hfield. unfold keep.
    rewrite bool_decide_true; [done|].
    apply elem_of_show_cols. split; [done|].
    unfold has_column in Hc. by apply bool_decide_eq_true in Hc.
  - intros Hc x Hx.
    change (x ∈ (λ r, field (project (show_cols df) r)) <$> take 50 (rows df))
      in Hx.
    apply list_elem_of_fmap in Hx as (r & -> & _).
    rewrite Hfield. unfold keep. rewrite bool_decide_false; [done|].
    intros Hin. apply elem_of_show_cols in Hin as [_ Hin].
    unfold has_column in Hc. apply bool_decide_eq_false in Hc. done.
Qed.
End PreviewCells.

(** X7.  The preview changes no cell: for each of the six preview
    columns, when the table has the column the preview shows its first 50
    cells exactly as they are in the table, nulls included, and when the
    table has not the column the preview shows nothing of it. *)
Theorem preview_keeps_cells {number} (df : DataFrame number) :
  preview_shows df "country" country
  ∧ preview_shows df "country_code" country_code
  ∧ preview_shows df "year" year
  ∧ preview_shows df "indicator_name" indicator_name
  ∧ preview_shows df "value" value
  ∧ preview_shows df "source" source.
Proof.
  assert (∀ c, bool_decide (c ∈ PREVIEW_COLUMNS) = true → c ∈ PREVIEW_COLUMNS)
    as Hin by (intros c; apply bool_decide_eq_true).
  split; [|split; [|split; [|split; [|split]]]];
    (apply getitem_preview; [done | by apply Hin]).
Qed.

(** ** The text of a count *)

Lemma filter_rev {A} (P : A → Prop) `{∀ x, Decision (P x)} (l : list A) :
  filter P (rev l) = rev (filter P l).
Proof.
  induction l as [|x l IH]; [done|]. simpl.
  rewrite filter_app, IH, !filter_cons, filter_nil.
  case_decide; simpl; [done|]. by rewrite app_nil_r.
Qed.

Lemma filter_commas_rev (k : nat) (ds : list ascii) :
  Forall (λ c, c ≠ ","%char) ds →
  filter (λ c, c ≠ ","%char) (commas_rev k ds) = ds.
Proof.
  intros Hds. revert k. induction Hds as [|d ds Hd Hds IH]; intros k; [done|].
  destruct k as [|[|[|[|k]]]]; simpl;
    rewrite ?(filter_cons_False _ ","%char) by (intros Hne; by apply Hne);
    rewrite filter_cons_True by done; by rewrite IH.
Qed.

Lemma strip_commas_group_digits (digits : string) :
  Forall (λ c, c ≠ ","%char) (list_ascii_of_string digits) →
  strip_commas (group_digits digits) = digits.
Proof.
  intros Hd. unfold strip_commas, group_digits.
  rewrite list_ascii_of_string_of_list_ascii, filter_rev.
  rewrite filter_commas_rev.
  - by rewrite rev_involutive, string_of_list_ascii_of_string.
  - apply Forall_forall. intros c Hc. apply list_elem_of_In, in_rev in Hc.
    rewrite Forall_forall in Hd. by apply Hd, list_elem_of_In.
Qed.

Lemma string_of_uint_digits (d : Decimal.uint) :
  Forall (λ c, c ≠ ","%char)
    (list_ascii_of_string (NilEmpty.string_of_uint d)).
Proof. induction d; simpl; constructor; done. Qed.

Lemma py_str_of_nat_digits (n : nat) :
  Forall (λ c, c ≠ ","%char) (list_ascii_of_string (py_str (Z.of_nat n))).
Proof.
  unfold py_str. destruct (Z.of_nat n) as [|p|p] eqn:Hn; [| |lia].
  - simpl. by repeat constructor.
  - simpl. unfold NilZero.string_of_uint.
    pose proof (string_of_uint_digits (Pos.to_uint p)) as Hd.
    destruct (Pos.to_uint p); [by repeat constructor|done..].
Qed.

Lemma py_format_comma_of_nat (n : nat) :
  py_format_comma (Z.of_nat n) = group_digits (py_str (Z.of_nat n)).
Proof.
  unfold py_format_comma.
  destruct (Z.ltb_spec (Z.of_nat n) 0) as [Hneg|_]; [lia|done].
Qed.

Lemma int_of_py_str (z : Z) :
  Z.of_int <$> NilZero.int_of_string (py_str z) = Some z.
Proof.
  unfold py_str. rewrite NilZero.isi.
  - simpl. by rewrite DecimalZ.of_to.
  - destruct z as [|p|p]; [done| |done]. simpl. intros [= Hp].
    by apply DecimalPos.Unsigned.to_uint_nonnil in Hp.
  - destruct z as [|p|p]; [done|done|]. simpl. intros [= Hp].
    by apply DecimalPos.Unsigned.to_uint_nonnil in Hp.
Qed.

(** X8.  The text of a count on a metric (lines 62, 63 and 65) is the
    decimal numeral of the count once the commas are taken out, so the
    count can be read back from it, and two different counts never get
    the same text; a count below 1000 is written without any comma. *)
Theorem count_text_reads_back (n m : nat) :
  strip_commas (py_format_comma (Z.of_nat n)) = py_str (Z.of_nat n)
  ∧ count_of_text (py_format_comma (Z.of_nat n)) = Some (Z.of_nat n)
  ∧ (py_format_comma (Z.of_nat n) = py_format_comma (Z.of_nat m) → n = m)
  ∧ (n < 1000 → py_format_comma (Z.of_nat n) = py_str (Z.of_nat n)).
Proof.
  assert (∀ k, strip_commas (py_format_comma (Z.of_nat k))
               = py_str (Z.of_nat k)) as Hstrip.
  { intros k. rewrite py_format_comma_of_nat.
    apply strip_commas_group_digits, py_str_of_nat_digits. }
  assert (∀ k, count_of_text (py_format_comma (Z.of_nat k))
               = Some (Z.of_nat k)) as Hcount.
  { intros k. unfold count_of_text. rewrite Hstrip. apply int_of_py_str. }
  split; [done|]. split; [done|]. split.
  - intros Heq. pose proof (Hcount n) as Hn. rewrite Heq, Hcount in Hn.
    injection Hn as Hn. lia.
  - intros Hlt.
    assert (forallb (λ k, bool_decide (py_format_comma (Z.of_nat k)
                                       = py_str (Z.of_nat k)))
              (seq 0 1000) = true) as Hall by (vm_compute; reflexivity).
    rewrite forallb_forall in Hall.
    assert (In n (seq 0 1000)) as Hin by (apply in_seq; lia).
    apply Hall in Hin. by apply bool_decide_eq_true in Hin.
Qed.

Lemma count_text_reads_back_witness :
  (999 < 1000)%nat
  ∧ py_format_comma (Z.of_nat 999) = py_str (Z.of_nat 999)
  ∧ count_of_text (py_format_comma (Z.of_nat 4321)) = Some (Z.of_nat 4321).
Proof.
  assert (999 < 1000)%nat as Hlt by lia.
  split; [exact Hlt|].
  destruct (count_text_reads_back 999 0) as (_ & _ & _ & Hsmall).
  split; [exact (Hsmall Hlt)|].
  destruct (count_text_reads_back 4321 0) as (_ & Hback & _).
  exact Hback.
Defined.

(** ** How the four metrics stand to one another *)

(** X9.  In every table the Indicators count is at most the row count;
    line 58 raises only if line 57 has raised before it, and both give
    [None] or both give a year; and when they give years, the least year
    is at most the greatest, so the Years metric never shows a range that
    runs backwards. *)
Theorem metrics_are_consistent {number} (df : DataFrame number) :
  length (indicators df) ≤ len df
  ∧ (∀ lo, year_min df = Ok lo →
       ∃ hi, year_max df = Ok hi
         ∧ (lo = None ↔ hi = None)
         ∧ ∀ a b, lo = Some a → hi = Some b → (a ≤ b)%Z)
  ∧ (∀ e, year_max df = Raise e → year_min df = Raise e).
Proof.
  split; [|split].
  - unfold indicators, len. destruct (has_column df "indicator_name");
      [|simpl; lia].
    rewrite length_sorted. unfold unique.
    pose proof (length_unique_from [] (dropna (getitem df indicator_name))).
    pose proof (length_dropna (getitem df indicator_name)).
    unfold getitem in *. rewrite length_map in *. lia.
  - intros lo Hlo. unfold year_min, year_max in *.
    destruct (has_column df "year"); [|injection Hlo as <-; by exists None].
    destruct (series_has_year_dec (getitem df year)) as [[y Hy] | Hnull].
    + destruct (series_min_Some _ _ Hy) as (a & Ha & Hina & Hlea).
      destruct (series_max_Some _ _ Hy) as (b & Hb & Hinb & Hleb).
      rewrite Ha in Hlo. rewrite Hb. simpl in *. injection Hlo as <-.
      exists (Some b). split; [done|]. split; [done|].
      intros a' b' [= <-] [= <-]. by apply Hlea.
    + rewrite series_min_all_null in Hlo by done. done.
  - intros e He. unfold year_min, year_max in *.
    destruct (has_column df "year"); [|done].
    destruct (series_has_year_dec (getitem df year)) as [[y Hy] | Hnull].
    + destruct (series_max_Some _ _ Hy) as (b & Hb & _).
      rewrite Hb in He. done.
    + rewrite series_min_all_null by done.
      rewrite series_max_all_null in He by done. done.
Qed.

(** ** One more row *)

Section Growth.
Context {A : Type} `{EqDecision A}.
Implicit Types (s : list (option A)).

Lemma nunique_mono s s' :
  (∀ x, Some x ∈ s → Some x ∈ s') → nunique s ≤ nunique s'.
Proof.
  intros Hsub. unfold nunique. apply submseteq_length.
  apply NoDup_submseteq; [apply NoDup_unique|].
  intros x. rewrite !elem_of_unique, !elem_of_dropna. apply Hsub.
Qed.

Lemma nunique_one_more s s' (o : option A) :
  (∀ x, Some x ∈ s' → Some x ∈ s ∨ o = Some x) →
  nunique s' ≤ S (nunique s).
Proof.
  intros Hsub. unfold nunique.
  assert (unique (dropna s') ⊆+ dropna [o] ++ unique (dropna s)) as Hle.
  { apply NoDup_submseteq; [apply NoDup_unique|].
    intros x. rewrite elem_of_app, !elem_of_unique, !elem_of_dropna.
    intros Hx. destruct (Hsub x Hx) as [Hs | ->]; [by right|].
    left. by apply list_elem_of_singleton. }
  apply submseteq_length in Hle. rewrite length_app in Hle.
  destruct o as [v|]; cbn in Hle; lia.
Qed.
End Growth.

(** X10.  Putting one more row anywhere into a table raises the row
    count by exactly one, never lowers the Countries count or the
    Indicators count and raises each by at most one; and when the least
    and greatest year were there before, they are there after, the least
    no greater and the greatest no smaller than before. *)
Theorem one_more_row {number} (cols : list string)
    (before after : list (Row number)) (r : Row number) :
  let df := mkDataFrame cols (before ++ after) in
  let df' := mkDataFrame cols (before ++ r :: after) in
  len df' = S (len df)
  ∧ countries df ≤ countries df' ≤ S (countries df)
  ∧ length (indicators df) ≤ length (indicators df')
      ≤ S (length (indicators df))
  ∧ (∀ a, year_min df = Ok (Some a) →
       ∃ a', year_min df' = Ok (Some a') ∧ (a' ≤ a)%Z)
  ∧ (∀ b, year_max df = Ok (Some b) →
       ∃ b', year_max df' = Ok (Some b') ∧ (b ≤ b')%Z).
Proof.
  intros df df'.
  assert (∀ {B} (field : Row number → option B) x,
            x ∈ getitem df field → x ∈ getitem df' field) as Hold.
  { intros B field x. unfold getitem, df, df'. simpl.
    rewrite !map_app. simpl. rewrite !elem_of_app, elem_of_cons. tauto. }
  assert (∀ {B} (field : Row number → option B) x,
            x ∈ getitem df' field → x ∈ getitem df field ∨ field r = x)
    as Hnew.
  { intros B field x. unfold getitem, df, df'. simpl.
    rewrite !map_app. simpl. rewrite !elem_of_app, elem_of_cons.
    intros [?|[->|?]]; tauto. }
  split; [|split; [|split; [|split]]].
  - unfold len, df, df'. simpl. rewrite !length_app. simpl. lia.
  - unfold countries. change (has_column df' "country_code")
      with (has_column df "country_code").
    destruct (has_column df "country_code"); [|lia]. split.
    + apply nunique_mono. intros x. apply Hold.
    + apply (nunique_one_more _ _ (country_code r)). intros x. apply Hnew.
  - unfold indicators. change (has_column df' "indicator_name")
      with (has_column df "indicator_name").
    destruct (has_column df "indicator_name"); [|simpl; lia].
    rewrite !length_sorted. split.
    + apply (nunique_mono (getitem df indicator_name)
               (getitem df' indicator_name)). intros x. apply Hold.
    + apply (nunique_one_more (getitem df indicator_name)
               (getitem df' indicator_name) (indicator_name r)).
      intros x. apply Hnew.
  - intros a Ha. unfold year_min in *.
    change (has_column df' "year") with (has_column df "year").
    destruct (has_column df "year"); [|done].
    destruct (series_min (getitem df year)) as [a0|] eqn:Hmin; [|done].
    simpl in Ha. injection Ha as ->.
    assert (Some a ∈ getitem df year) as Hin.
    { apply elem_of_dropna. unfold series_min in Hmin.
      destruct (dropna (getitem df year)) as [|x t]; [done|].
      injection Hmin as <-. apply foldl_min_spec. }
    destruct (series_min_Some _ _ (Hold _ year _ Hin))
      as (a' & -> & _ & Hle).
    exists a'. split; [done|]. apply Hle. by apply Hold.
  - intros b Hb. unfold year_max in *.
    change (has_column df' "year") with (has_column df "year").
    destruct (has_column df "year"); [|done].
    destruct (series_max (getitem df year)) as [b0|] eqn:Hmax; [|done].
    simpl in Hb. injection Hb as ->.
    assert (Some b ∈ getitem df year) as Hin.
    { apply elem_of_dropna. unfold series_max in Hmax.
      destruct (dropna (getitem df year)) as [|x t]; [done|].
      injection Hmax as <-. apply foldl_max_spec. }
    destruct (series_max_Some _ _ (Hold _ year _ Hin))
      as (b' & -> & _ & Hle).
    exists b'. split; [done|]. apply Hle. by apply Hold.
Qed.

(** * The defect of line 57 *)

(** Line 57 is [int(df["year"].min())].  On a non-empty table whose
    [year] column holds no year the minimum is a missing value and [int]
    raises, so the run ends after the header: lines 59 to 185 are not
    reached.  Lines 55 and 56 take an all-null column ([nunique] and
    [dropna] leave nulls out) and line 64 has a placeholder for a missing
    year range, which only a missing column gets. *)

(** C7.  Code bug.  [null_years] is not empty and has a [year] column,
    whose one cell is null.  The claim has its Years metric rendered; the
    code raises on line 57, the page is the header alone and there is no
    Years metric, nor any other.  On the same table line 55 gives 1 and
    line 56 gives the one name. *)
Theorem years_metric_fails_without_a_year :
  empty null_years = false
  ∧ has_column null_years "year" = true
  ∧ getitem null_years year = [None]
  ∧ countries null_years = 1%nat
  ∧ indicators null_years = ["GDP"]
  ∧ year_min null_years = Raise IntOfMissing
  ∧ render SAMPLE_PATH null_years =
      ([Markdown HERO_HTML true], Raised IntOfMissing)
  ∧ shown_metrics (render SAMPLE_PATH null_years).1 = [].
Proof. vm_compute. done. Qed.

(** C3.  Code bug, the defect of line 57.  [null_years] is not empty and
    has a [country_code] column with one code, and line 55 counts 1; the
    claim has the Countries metric equal to that count, but the run ends
    on line 57 and no Countries metric is drawn. *)
Theorem countries_metric_fails_without_a_year :
  empty null_years = false
  ∧ has_column null_years "country_code" = true
  ∧ getitem null_years country_code = [Some "US"]
  ∧ countries null_years = 1%nat
  ∧ (render SAMPLE_PATH null_years).2 = Raised IntOfMissing
  ∧ shown_metrics (render SAMPLE_PATH null_years).1 = [].
Proof. vm_compute. done. Qed.

(** C4.  Code bug, the defect of line 57.  [null_years] is not empty and
    line 56 gives the sorted, duplicate-free list of its one indicator
    name; the claim has the Indicators metric equal to its length, 1, but
    the run ends on line 57 and no Indicators metric is drawn. *)
Theorem indicators_metric_fails_without_a_year :
  empty null_years = false
  ∧ has_column null_years "indicator_name" = true
  ∧ getitem null_years indicator_name = [Some "GDP"]
  ∧ indicators null_years = ["GDP"]
  ∧ (render SAMPLE_PATH null_years).2 = Raised IntOfMissing
  ∧ shown_metrics (render SAMPLE_PATH null_years).1 = [].
Proof. vm_compute. done. Qed.

(** C5.  Code bug, the defect of line 57.  [null_years] is not empty and
    has one row, so the claim has a preview of that one row; line 181
    would build it, but the run ends on line 57 and the page shows no
    table. *)
Theorem preview_rows_fail_without_a_year :
  empty null_years = false
  ∧ len null_years = 1%nat
  ∧ rows (preview null_years) = rows null_years
  ∧ (render SAMPLE_PATH null_years).2 = Raised IntOfMissing
  ∧ shown_dataframes (render SAMPLE_PATH null_years).1 = [].
Proof. vm_compute. done. Qed.

(** C6.  Code bug, the defect of line 57.  [null_years] is not empty and
    three of its columns are on the fixed list, so the claim has a
    preview with these three columns in the order of the list; line 180
    would select them, but the run ends on line 57 and the page shows no
    table. *)
Theorem preview_columns_fail_without_a_year :
  empty null_years = false
  ∧ columns null_years = ["country_code"; "indicator_name"; "year"]
  ∧ show_cols null_years = ["country_code"; "year"; "indicator_name"]
  ∧ (render SAMPLE_PATH null_years).2 = Raised IntOfMissing
  ∧ shown_dataframes (render SAMPLE_PATH null_years).1 = [].
Proof. vm_compute. done. Qed.

(** C10.  Code bug, the defect of line 57.  [null_fields] is not empty;
    its second row has neither a code nor a name.  Lines 55 and 56 leave
    that row out (one country, one indicator), and the claim has the Rows
    metric count it (two rows); but the run ends on line 57, line 59 is
    not reached and no metric is drawn. *)
Theorem null_cells_metrics_fail_without_a_year :
  empty null_fields = false
  ∧ getitem null_fields country_code = [Some "US"; None]
  ∧ getitem null_fields indicator_name = [Some "GDP"; None]
  ∧ countries null_fields = 1%nat
  ∧ indicators null_fields = ["GDP"]
  ∧ length (rows null_fields) = 2%nat
  ∧ (render SAMPLE_PATH null_fields).2 = Raised IntOfMissing
  ∧ shown_metrics (render SAMPLE_PATH null_fields).1 = [].
Proof. vm_compute. done. Qed.

(** * The page of a table whose years are known *)

Section Known.
Context {number : Type}.
Implicit Types (df : DataFrame number) (DATA_PATH : string).

(** Lines 57 and 58 on such a table. *)
Lemma year_range_known df :
  years_known df →
  ∃ lo hi, year_min df = Ok lo ∧ year_max df = Ok hi
    ∧ (has_column df "year" = false → lo = None ∧ hi = None)
    ∧ (has_column df "year" = true →
         ∃ a b, lo = Some a ∧ hi = Some b
           ∧ is_min (getitem df year) a ∧ is_max (getitem df year) b).
Proof.
  intros Hk. destruct (has_column df "year") eqn:Hc.
  - destruct Hk as [Hno | [y Hy]]; [congruence|].
    destruct (year_min_present df y Hc Hy) as (a & Ha & Hmin).
    destruct (year_max_present df y Hc Hy) as (b & Hb & Hmax).
    exists (Some a), (Some b). split; [done|]. split; [done|].
    split; [done|]. intros _. by exists a, b.
  - exists None, None. split; [by apply year_min_absent|].
    split; [by apply year_max_absent|]. split; [done|]. done.
Qed.

(** The whole page of such a table. *)
Lemma render_years_known DATA_PATH df :
  empty df = false → years_known df →
  ∃ lo hi, year_min df = Ok lo ∧ year_max df = Ok hi
    ∧ render DATA_PATH df =
        (Markdown HERO_HTML true
           :: Columns
                [ [Metric "Countries"
                     (py_format_comma (Z.of_nat (countries df)))];
                  [Metric "Indicators"
                     (py_format_comma (Z.of_nat (length (indicators df))))];
                  [Metric "Years" (years_text lo hi)];
                  [Metric "Rows" (py_format_comma (Z.of_nat (len df)))] ]
           :: body (preview df),
         Completed).
Proof.
  intros He Hk. destruct (year_range_known df Hk) as (lo & hi & Hlo & Hhi & _).
  exists lo, hi. split; [done|]. split; [done|]. by apply render_ready.
Qed.

Lemma shown_metrics_years_known DATA_PATH df :
  empty df = false → years_known df →
  ∃ years,
    shown_metrics (render DATA_PATH df).1 =
      [ ("Countries", py_format_comma (Z.of_nat (countries df)));
        ("Indicators", py_format_comma (Z.of_nat (length (indicators df))));
        ("Years", years);
        ("Rows", py_format_comma (Z.of_nat (len df))) ].
Proof.
  intros He Hk.
  destruct (render_years_known DATA_PATH df He Hk) as (lo & hi & _ & _ & ->).
  by exists (years_text lo hi).
Qed.

Lemma shown_dataframes_years_known DATA_PATH df :
  empty df = false → years_known df →
  shown_dataframes (render DATA_PATH df).1 = [preview df].
Proof.
  intros He Hk.
  by destruct (render_years_known DATA_PATH df He Hk) as (lo & hi & _ & _ & ->).
Qed.
End Known.

(** X11.  For a non-empty table that has no [year] column or has a year
    in it, the run completes and the second element of the page is the
    row of four columns holding, left to right, Countries, Indicators,
    Years and Rows.  The Years metric is the em-dash when the table has
    no [year] column, and the least year, an arrow and the greatest year
    when it has one. *)
Theorem years_metric {number} (DATA_PATH : string) (df : DataFrame number) :
  empty df = false →
  years_known df →
  ∃ years,
    (render DATA_PATH df).2 = Completed
    ∧ (render DATA_PATH df).1 !! 1%nat =
        Some (Columns
                [ [Metric "Countries"
                     (py_format_comma (Z.of_nat (countries df)))];
                  [Metric "Indicators"
                     (py_format_comma (Z.of_nat (length (indicators df))))];
                  [Metric "Years" years];
                  [Metric "Rows" (py_format_comma (Z.of_nat (len df)))] ])
    ∧ shown_metrics (render DATA_PATH df).1 =
        [ ("Countries", py_format_comma (Z.of_nat (countries df)));
          ("Indicators", py_format_comma (Z.of_nat (length (indicators df))));
          ("Years", years);
          ("Rows", py_format_comma (Z.of_nat (len df))) ]
    ∧ (has_column df "year" = false → years = "—")
    ∧ (has_column df "year" = true →
         ∃ lo hi, is_min (getitem df year) lo ∧ is_max (getitem df year) hi
           ∧ years = py_str lo +:+ " → " +:+ py_str hi).
Proof.
  intros He Hk.
  destruct (year_range_known df Hk) as (lo & hi & Hlo & Hhi & Hno & Hyes).
  exists (years_text lo hi).
  rewrite (render_ready DATA_PATH df lo hi He Hlo Hhi).
  split; [done|]. split; [done|]. split; [done|]. split.
  - intros Hc. by destruct (Hno Hc) as [-> ->].
  - intros Hc. destruct (Hyes Hc) as (a & b & -> & -> & Hmin & Hmax).
    by exists a, b.
Qed.

Lemma years_metric_witness :
  empty dated_rows = false
  ∧ years_known dated_rows
  ∧ shown_metrics (render SAMPLE_PATH dated_rows).1 =
      [("Countries", "2"); ("Indicators", "2"); ("Years", "1999 → 2003");
       ("Rows", "3")].
Proof.
  assert (years_known dated_rows) as Hk.
  { right. exists 2003%Z. unfold getitem, dated_rows. simpl. left. }
  split; [reflexivity|]. split; [exact Hk|].
  destruct (years_metric SAMPLE_PATH dated_rows eq_refl Hk)
    as (years & _ & _ & Hshown & _).
  assert (years = "1999 → 2003") as Hyears
    by (vm_compute in Hshown; congruence).
  rewrite Hshown, Hyears. vm_compute. reflexivity.
Defined.

(** X12.  For a non-empty table that has no [year] column or has a year
    in it, the first metric on the page is Countries, with the count of
    line 55.  With a [country_code] column that count is the length of a
    duplicate-free list of exactly the codes in the column (nulls are not
    codes), and of every such list; it is at most the row count and
    strictly below it as soon as a code repeats.  Without the column the
    metric shows 0. *)
Theorem countries_metric_distinct {number} (DATA_PATH : string)
    (df : DataFrame number) :
  empty df = false →
  years_known df →
  (∃ others, shown_metrics (render DATA_PATH df).1 =
     ("Countries", py_format_comma (Z.of_nat (countries df))) :: others)
  ∧ (has_column df "country_code" = true →
       (∃ codes, NoDup codes
          ∧ (∀ c, c ∈ codes ↔ Some c ∈ getitem df country_code)
          ∧ countries df = length codes)
       ∧ (∀ codes, NoDup codes →
            (∀ c, c ∈ codes ↔ Some c ∈ getitem df country_code) →
            countries df = length codes)
       ∧ countries df ≤ len df
       ∧ (¬ NoDup (dropna (getitem df country_code)) →
            countries df < len df))
  ∧ (has_column df "country_code" = false →
       ∃ others, shown_metrics (render DATA_PATH df).1 =
         ("Countries", "0") :: others).
Proof.
  intros He Hk.
  destruct (shown_metrics_years_known DATA_PATH df He Hk) as (years & Hshown).
  split; [rewrite Hshown; eauto|]. split.
  - intros Hc. split; [by apply countries_distinct|].
    assert (length (getitem df country_code) = len df) as Hlen
      by apply length_map.
    unfold countries. rewrite Hc, <- Hlen. split.
    { intros codes Hnd Hcodes. by apply nunique_distinct. }
    split; [apply nunique_le_length | apply nunique_lt_length].
  - intros Hc. rewrite Hshown. unfold countries. rewrite Hc. eauto.
Qed.

Lemma countries_metric_distinct_witness :
  empty three_rows = false
  ∧ years_known three_rows
  ∧ (∃ others, shown_metrics (render SAMPLE_PATH three_rows).1 =
       ("Countries", py_format_comma (Z.of_nat (countries three_rows)))
         :: others)
  ∧ countries three_rows = 2%nat
  ∧ (countries three_rows < len three_rows)%nat.
Proof.
  assert (years_known three_rows) as Hk by (left; reflexivity).
  assert (¬ NoDup (dropna (getitem three_rows country_code))) as Hdup.
  { intros Hnd. apply NoDup_cons in Hnd as [Hus _]. apply Hus. left. }
  split; [reflexivity|]. split; [exact Hk|].
  destruct (countries_metric_distinct SAMPLE_PATH three_rows eq_refl Hk)
    as (Hshown & Hpresent & _).
  split; [exact Hshown|]. split; [reflexivity|].
  destruct (Hpresent eq_refl) as (_ & _ & _ & Hlt). exact (Hlt Hdup).
Defined.

(** X13.  For a non-empty table that has no [year] column or has a year
    in it, the second metric on the page is Indicators, with the length
    of the list of line 56.  That list is duplicate-free and strictly
    ascending; with an [indicator_name] column it holds exactly the names
    in the column, so its length is the number of distinct names; without
    the column it is empty and the metric shows 0. *)
Theorem indicators_metric_sorted_distinct {number} (DATA_PATH : string)
    (df : DataFrame number) :
  empty df = false →
  years_known df →
  (∃ first others, shown_metrics (render DATA_PATH df).1 =
     first
       :: ("Indicators", py_format_comma (Z.of_nat (length (indicators df))))
       :: others)
  ∧ NoDup (indicators df)
  ∧ Sorted str_lt (indicators df)
  ∧ (has_column df "indicator_name" = true →
       (∀ x, x ∈ indicators df ↔ Some x ∈ getitem df indicator_name)
       ∧ length (indicators df) = nunique (getitem df indicator_name))
  ∧ (has_column df "indicator_name" = false →
       indicators df = []
       ∧ ∃ first others, shown_metrics (render DATA_PATH df).1 =
           first :: ("Indicators", "0") :: others).
Proof.
  intros He Hk.
  destruct (shown_metrics_years_known DATA_PATH df He Hk) as (years & Hshown).
  split; [rewrite Hshown; eauto|].
  split; [apply indicators_NoDup|]. split; [apply indicators_Sorted|]. split.
  - intros Hc. split.
    + intros x. by apply elem_of_indicators.
    + by apply length_indicators.
  - intros Hc. rewrite Hshown. unfold indicators. rewrite Hc. eauto.
Qed.

Lemma indicators_metric_sorted_distinct_witness :
  empty three_rows = false
  ∧ years_known three_rows
  ∧ (∃ first others, shown_metrics (render SAMPLE_PATH three_rows).1 =
       first
         :: ("Indicators",
              py_format_comma (Z.of_nat (length (indicators three_rows))))
         :: others)
  ∧ indicators three_rows = ["GDP"; "Inflation"]
  ∧ Sorted str_lt (indicators three_rows).
Proof.
  assert (years_known three_rows) as Hk by (left; reflexivity).
  split; [reflexivity|]. split; [exact Hk|].
  destruct (indicators_metric_sorted_distinct SAMPLE_PATH three_rows eq_refl Hk)
    as (Hshown & _ & Hsorted & _).
  split; [exact Hshown|]. split; [vm_compute; reflexivity|]. exact Hsorted.
Defined.

(** The table of the example: codes US, US, FR and names GDP, Inflation,
    GDP give Countries 2 and Indicators 2. *)
Example three_rows_metrics :
  shown_metrics (render SAMPLE_PATH three_rows).1 =
    [("Countries", "2"); ("Indicators", "2"); ("Years", "—"); ("Rows", "3")].
Proof. vm_compute. reflexivity. Qed.

(** X14.  For a non-empty table that has no [year] column or has a year
    in it, the page shows one table, the preview.  It has all the rows of
    the table when there are at most 50 and exactly 50 when there are
    more, and for each of the six preview columns that the table has, its
    cells are the first 50 cells of the column, in file order and
    unchanged. *)
Theorem preview_first_50_rows {number} (DATA_PATH : string)
    (df : DataFrame number) :
  empty df = false →
  years_known df →
  shown_dataframes (render DATA_PATH df).1 = [preview df]
  ∧ (len df ≤ 50 → len (preview df) = len df)
  ∧ (50 < len df → len (preview df) = 50%nat)
  ∧ preview_shows df "country" country
  ∧ preview_shows df "country_code" country_code
  ∧ preview_shows df "year" year
  ∧ preview_shows df "indicator_name" indicator_name
  ∧ preview_shows df "value" value
  ∧ preview_shows df "source" source.
Proof.
  intros He Hk. split; [by apply shown_dataframes_years_known|].
  assert (len (preview df) = Nat.min 50 (len df)) as Hlen.
  { unfold len. by rewrite rows_preview, length_map, length_take. }
  split; [lia|]. split; [lia|].
  assert (∀ c, bool_decide (c ∈ PREVIEW_COLUMNS) = true → c ∈ PREVIEW_COLUMNS)
    as Hin by (intros c; apply bool_decide_eq_true).
  split; [|split; [|split; [|split; [|split]]]];
    (apply getitem_preview; [done | by apply Hin]).
Qed.

Lemma preview_first_50_rows_witness :
  empty (numbered_rows 60) = false
  ∧ years_known (numbered_rows 60)
  ∧ shown_dataframes (render SAMPLE_PATH (numbered_rows 60)).1
    = [preview (numbered_rows 60)]
  ∧ len (preview (numbered_rows 60)) = 50%nat
  ∧ getitem (preview (numbered_rows 60)) year
    = take 50 (getitem (numbered_rows 60) year).
Proof.
  assert (years_known (numbered_rows 60)) as Hk.
  { right. exists 0%Z. unfold getitem, numbered_rows. simpl. left. }
  assert (50 < len (numbered_rows 60))%nat as H60 by (vm_compute; lia).
  split; [reflexivity|]. split; [exact Hk|].
  destruct (preview_first_50_rows SAMPLE_PATH (numbered_rows 60) eq_refl Hk)
    as (Hshown & _ & Hmore & _ & _ & [Hyear _] & _).
  split; [exact Hshown|]. split; [exact (Hmore H60)|].
  exact (Hyear eq_refl).
Defined.

(** X15.  For a non-empty table that has no [year] column or has a year
    in it, the one table on the page has as columns the labels that are
    both on the fixed list (country, country_code, year, indicator_name,
    value, source) and among the table's columns, in the order of the
    fixed list: a sublist of it.  Two tables with the same labels, in
    whatever order, get the same preview columns. *)
Theorem preview_columns_allowlist {number} (DATA_PATH : string)
    (df : DataFrame number) :
  empty df = false →
  years_known df →
  columns <$> shown_dataframes (render DATA_PATH df).1 = [show_cols df]
  ∧ PREVIEW_COLUMNS =
      ["country"; "country_code"; "year"; "indicator_name"; "value"; "source"]
  ∧ (∀ c, c ∈ show_cols df ↔ c ∈ PREVIEW_COLUMNS ∧ c ∈ columns df)
  ∧ show_cols df `sublist_of` PREVIEW_COLUMNS
  ∧ (∀ df' : DataFrame number, columns df' ≡ₚ columns df →
       show_cols df' = show_cols df).
Proof.
  intros He Hk. split.
  { by rewrite shown_dataframes_years_known. }
  split; [done|]. split; [apply elem_of_show_cols|].
  split; [apply show_cols_sublist|].
  intros df' Hperm. apply show_cols_same_labels. intros c. by rewrite Hperm.
Qed.

Lemma preview_columns_allowlist_witness :
  empty dated_rows = false
  ∧ years_known dated_rows
  ∧ columns dated_rows = ["year"; "indicator_name"; "country_code"; "iso3"]
  ∧ show_cols dated_rows = ["country_code"; "year"; "indicator_name"]
  ∧ columns <$> shown_dataframes (render SAMPLE_PATH dated_rows).1
    = [show_cols dated_rows].
Proof.
  assert (years_known dated_rows) as Hk.
  { right. exists 2003%Z. unfold getitem, dated_rows. simpl. left. }
  split; [reflexivity|]. split; [exact Hk|]. split; [reflexivity|].
  split; [vm_compute; reflexivity|].
  destruct (preview_columns_allowlist SAMPLE_PATH dated_rows eq_refl Hk)
    as (Hshown & _).
  exact Hshown.
Defined.

(** X16.  For a non-empty table that has no [year] column or has a year
    in it, the Countries metric is the count of the table without the
    rows whose [country_code] is null, the Indicators metric the count of
    the table without the rows whose [indicator_name] is null, and the
    Rows metric the number of rows of the table without the rows whose
    [country_code] is null plus the number of those rows: every row is
    counted there. *)
Theorem null_cells_left_out_of_counts {number} (DATA_PATH : string)
    (df : DataFrame number) :
  empty df = false →
  years_known df →
  (∃ years, shown_metrics (render DATA_PATH df).1 =
     [ ("Countries",
         py_format_comma
           (Z.of_nat (countries (without_null country_code df))));
       ("Indicators",
         py_format_comma
           (Z.of_nat (length (indicators (without_null indicator_name df)))));
       ("Years", years);
       ("Rows",
         py_format_comma
           (Z.of_nat (len (without_null country_code df)
                      + length (null_rows country_code df)))) ])
  ∧ len df = (len (without_null indicator_name df)
              + length (null_rows indicator_name df))%nat.
Proof.
  intros He Hk.
  assert (countries df = countries (without_null country_code df)) as Hc.
  { unfold countries, nunique.
    by rewrite has_column_without_null, dropna_without_null. }
  assert (indicators df = indicators (without_null indicator_name df)) as Hi.
  { unfold indicators.
    by rewrite has_column_without_null, dropna_without_null. }
  split; [|apply length_null_split].
  destruct (shown_metrics_years_known DATA_PATH df He Hk) as (years & Hshown).
  exists years. by rewrite Hshown, <- Hc, <- Hi, <- length_null_split.
Qed.

Lemma null_cells_left_out_of_counts_witness :
  empty with_null_row = false
  ∧ years_known with_null_row
  ∧ length (null_rows country_code with_null_row) = 1%nat
  ∧ ∃ years, shown_metrics (render SAMPLE_PATH with_null_row).1 =
      [("Countries", "2"); ("Indicators", "2"); ("Years", years);
       ("Rows", "4")].
Proof.
  assert (years_known with_null_row) as Hk by (left; reflexivity).
  split; [reflexivity|]. split; [exact Hk|].
  split; [vm_compute; reflexivity|].
  destruct (null_cells_left_out_of_counts SAMPLE_PATH with_null_row eq_refl Hk)
    as ((years & Hshown) & _).
  exists years. rewrite Hshown. vm_compute. reflexivity.
Defined.
